(** * SensorySurvey3D: the survey back end (backend/survey3d.py)

    A shallow embedding of the data classes [Quality], [ProjectedField] and
    [Survey] and of the [SurveyManager], with the properties of their
    dictionary conversion, of saving a survey and of the manager's
    life cycle. *)

From Stdlib Require Import PrimFloat Ascii DecimalString DecimalNat.
From stdpp Require Import gmap strings list fin_maps.

Local Open Scope string_scope.
Local Set Warnings "-register-all".

(** ** Python values *)

(** The data that [json.load] produces and [json.dump] accepts.  A Python
    [dict] keeps the order in which its keys were inserted, and [json.dump]
    writes them in that order, so a dictionary is a list of bindings, the
    first binding of a key being the one that counts.  A string is the
    sequence of its characters, one [ascii] each. *)
Inductive value : Type :=
| VNone
| VBool (b : bool)
| VInt (n : Z)
| VFloat (x : float)
| VStr (s : string)
| VList (items : list value)
| VDict (bindings : list (string * value)).

Abbreviation dict := (list (string * value)).

(** [key in dictionary] and the lookup behind [dictionary[key]]. *)
Fixpoint dict_get (key : string) (d : dict) : option value :=
  match d with
  | [] => None
  | (k, v) :: rest => if String.eqb k key then Some v else dict_get key rest
  end.

Definition dict_contains (key : string) (d : dict) : bool :=
  match dict_get key d with Some _ => true | None => false end.

Definition dict_keys (d : dict) : list string := map fst d.

(** ** Exceptions, the world, and the monad of a method body *)

(** [OSError] stands for its subclasses too: [kind] is the name of the
    class that is raised ([FileNotFoundError], [PermissionError], ...) and
    [filename] the path it was raised for. *)
Inductive exn : Type :=
| KeyError (key : string)
| TypeError (msg : string)
| AttributeError (msg : string)
| OSError (kind : string) (filename : string).

Inductive outcome (A : Type) : Type :=
| Returns (a : A)
| Raises (e : exn).
Arguments Returns {A} a.
Arguments Raises {A} e.

(** [datetime.now()], down to the second. *)
Record datetime : Type := mkDatetime {
  year : nat; month : nat; day : nat;
  hour : nat; minute : nat; second : nat
}.

(** What a file holds: text of unknown origin, or the text that
    [json.dump(obj, file, indent = n)] writes for [obj]. *)
Inductive file_content : Type :=
| RawText (text : string)
| JsonText (indent : nat) (obj : value).

(** What the program shares with its surroundings: the files, by path, the
    lines printed so far, the system clock, and what [open(path, 'w')]
    does for each path: [open_error path] is [None] where the file can be
    opened, and the class of the [OSError] that is raised where it cannot
    (a directory that is missing or not writable, a path that names a
    directory).  A file that was opened is written to its end. *)
Record World : Type := mkWorld {
  files : gmap string file_content;
  stdout : list string;
  clock : datetime;
  open_error : string -> option string
}.

(** A method body run on [self : S]: it ends by returning or by raising,
    and in both cases leaves a (possibly updated) [self] and world. *)
Definition Py (S A : Type) : Type := S -> World -> outcome A * S * World.

Definition ret {S A : Type} (a : A) : Py S A :=
  fun self w => (Returns a, self, w).

Definition raise {S A : Type} (e : exn) : Py S A :=
  fun self w => (Raises e, self, w).

Definition bind {S A B : Type} (m : Py S A) (k : A -> Py S B) : Py S B :=
  fun self w =>
    match m self w with
    | (Returns a, self', w') => k a self' w'
    | (Raises e, self', w') => (Raises e, self', w')
    end.

Declare Scope py_scope.
Delimit Scope py_scope with py.
Notation "x <- m ;; k" := (bind m (fun x => k))
  (at level 100, m at next level, right associativity) : py_scope.
Notation "m ;; k" := (bind m (fun _ => k))
  (at level 100, right associativity) : py_scope.
Local Open Scope py_scope.

Definition get_self {S : Type} : Py S S :=
  fun self w => (Returns self, self, w).

Definition update_self {S : Type} (f : S -> S) : Py S unit :=
  fun self w => (Returns tt, f self, w).

(** The world after one more printed line, and after a file was written. *)
Definition with_line (line : string) (w : World) : World :=
  {| files := files w; stdout := stdout w ++ [line]; clock := clock w;
     open_error := open_error w |}.

Definition with_file (path : string) (content : file_content) (w : World)
  : World :=
  {| files := <[path := content]> (files w);
     stdout := stdout w; clock := clock w; open_error := open_error w |}.

(** [print(line)] *)
Definition print {S : Type} (line : string) : Py S unit :=
  fun self w => (Returns tt, self, with_line line w).

(** [datetime.now()] *)
Definition datetime_now {S : Type} : Py S datetime :=
  fun self w => (Returns (clock w), self, w).

(** [with open(path, 'w') as file: json.dump(obj, file, indent = n)]:
    where [open] raises, nothing is written and the error goes to the
    caller. *)
Definition write_json {S : Type} (path : string) (obj : value) (n : nat)
  : Py S unit :=
  fun self w =>
    match open_error w path with
    | Some kind => (Raises (OSError kind path), self, w)
    | None => (Returns tt, self, with_file path (JsonText n obj) w)
    end.

(** [dictionary[key]] *)
Definition getitem {S : Type} (d : dict) (key : string) : Py S value :=
  match dict_get key d with
  | Some v => ret v
  | None => raise (KeyError key)
  end.

(** ** Quality *)

Record Quality : Type := mkQuality {
  intensity : value;
  naturalness : value;
  pain : value;
  depth : value;
  type : value
}.

Definition Quality_keys : list string :=
  ["intensity"; "naturalness"; "pain"; "depth"; "type"].

Definition Quality_toDict (self : Quality) : dict :=
  [ ("intensity", intensity self);
    ("naturalness", naturalness self);
    ("pain", pain self);
    ("depth", depth self);
    ("type", type self) ].

Definition set_intensity (v : value) (q : Quality) : Quality :=
  mkQuality v (naturalness q) (pain q) (depth q) (type q).
Definition set_naturalness (v : value) (q : Quality) : Quality :=
  mkQuality (intensity q) v (pain q) (depth q) (type q).
Definition set_pain (v : value) (q : Quality) : Quality :=
  mkQuality (intensity q) (naturalness q) v (depth q) (type q).
Definition set_depth (v : value) (q : Quality) : Quality :=
  mkQuality (intensity q) (naturalness q) (pain q) v (type q).
Definition set_type (v : value) (q : Quality) : Quality :=
  mkQuality (intensity q) (naturalness q) (pain q) (depth q) v.

Definition Quality_fromDict (dictionary : dict) : Py Quality unit :=
  v <- getitem dictionary "intensity" ;; update_self (set_intensity v) ;;
  v <- getitem dictionary "naturalness" ;; update_self (set_naturalness v) ;;
  v <- getitem dictionary "pain" ;; update_self (set_pain v) ;;
  v <- getitem dictionary "depth" ;; update_self (set_depth v) ;;
  v <- getitem dictionary "type" ;; update_self (set_type v).

(** ** Library functions the module calls *)

(** [datetime.strftime]: a number in decimal, padded with zeros on the left. *)
Definition decimal (n : nat) : string := NilZero.string_of_uint (Nat.to_uint n).

Fixpoint zeros (n : nat) : string :=
  match n with
  | O => ""
  | S n' => String "0"%char (zeros n')
  end.

Definition zfill (width n : nat) : string :=
  zeros (width - String.length (decimal n)) +:+ decimal n.

(** [now.strftime("%Y-%m-%d")] *)
Definition strftime_Ymd (now : datetime) : string :=
  zfill 4 (year now) +:+ "-" +:+ zfill 2 (month now) +:+ "-" +:+ zfill 2 (day now).

(** [now.strftime("%H-%M-%S")] *)
Definition strftime_HMS (now : datetime) : string :=
  zfill 2 (hour now) +:+ "-" +:+ zfill 2 (minute now) +:+ "-" +:+ zfill 2 (second now).

(** The characters [strftime] writes for a number: decimal digits. *)
Definition is_digit (c : ascii) : bool :=
  Nat.leb 48 (nat_of_ascii c) && Nat.leb (nat_of_ascii c) 57.

Fixpoint all_digits (s : string) : bool :=
  match s with
  | EmptyString => true
  | String c rest => is_digit c && all_digits rest
  end.

(** [os.path.join(a, b)] of posixpath: an absolute [b] replaces [a];
    otherwise the two are joined with one separator between them. *)
Fixpoint endswith_sep (s : string) : bool :=
  match s with
  | EmptyString => false
  | String c rest =>
      match rest with
      | EmptyString => Ascii.eqb c "/"%char
      | String _ _ => endswith_sep rest
      end
  end.

Definition startswith_sep (s : string) : bool :=
  match s with
  | String c _ => Ascii.eqb c "/"%char
  | EmptyString => false
  end.

Definition os_path_join (a b : string) : string :=
  if startswith_sep b then b
  else if String.eqb a "" || endswith_sep a then a +:+ b
  else a +:+ "/" +:+ b.

(** Iterating over a value in a [for] loop: the items of a list, the keys
    of a dictionary, the characters of a string; the other values are not
    iterable. *)
Fixpoint characters (s : string) : list value :=
  match s with
  | EmptyString => []
  | String c rest => VStr (String c EmptyString) :: characters rest
  end.

Definition py_iter {S : Type} (v : value) : Py S (list value) :=
  match v with
  | VList items => ret items
  | VDict bindings => ret (map (fun kv => VStr (fst kv)) bindings)
  | VStr s => ret (characters s)
  | VNone => raise (TypeError "'NoneType' object is not iterable")
  | VBool _ => raise (TypeError "'bool' object is not iterable")
  | VInt _ => raise (TypeError "'int' object is not iterable")
  | VFloat _ => raise (TypeError "'float' object is not iterable")
  end.

(** [for x in items: body] *)
Fixpoint for_each {S A : Type} (items : list A) (body : A -> Py S unit)
  : Py S unit :=
  match items with
  | [] => ret tt
  | x :: rest => body x ;; for_each rest body
  end.

(** ** ProjectedField *)

Record ProjectedField : Type := mkProjectedField {
  model : value;
  name : value;
  vertices : value;
  hotSpot : value;
  qualities : list Quality
}.

Definition ProjectedField_toDict (self : ProjectedField) : dict :=
  let qualitiesDict := map (fun quality => VDict (Quality_toDict quality))
                           (qualities self) in
  [ ("model", model self);
    ("name", name self);
    ("verices", vertices self);
    ("hotSpot", hotSpot self);
    ("qualities", VList qualitiesDict) ].

Definition set_model (v : value) (f : ProjectedField) : ProjectedField :=
  mkProjectedField v (name f) (vertices f) (hotSpot f) (qualities f).
Definition set_name (v : value) (f : ProjectedField) : ProjectedField :=
  mkProjectedField (model f) v (vertices f) (hotSpot f) (qualities f).
Definition set_vertices (v : value) (f : ProjectedField) : ProjectedField :=
  mkProjectedField (model f) (name f) v (hotSpot f) (qualities f).
Definition set_hotSpot (v : value) (f : ProjectedField) : ProjectedField :=
  mkProjectedField (model f) (name f) (vertices f) v (qualities f).
Definition set_qualities (qs : list Quality) (f : ProjectedField)
  : ProjectedField :=
  mkProjectedField (model f) (name f) (vertices f) (hotSpot f) qs.

(** [Quality()]: the data class has five fields without defaults, so the
    call without arguments raises, and nothing is ever constructed. *)
Definition Quality_no_arguments {S : Type} : Py S Empty_set :=
  raise (TypeError
    "Quality.__init__() missing 5 required positional arguments: 'intensity', 'naturalness', 'pain', 'depth', and 'type'").

(** The loop body [quality = Quality().fromDict(quality);
    self.qualities.append(quality)] stops at [Quality()]. *)
Definition ProjectedField_fromDict (dictionary : dict)
  : Py ProjectedField unit :=
  v <- getitem dictionary "model" ;; update_self (set_model v) ;;
  v <- getitem dictionary "name" ;; update_self (set_name v) ;;
  v <- getitem dictionary "vertices" ;; update_self (set_vertices v) ;;
  v <- getitem dictionary "hotSpot" ;; update_self (set_hotSpot v) ;;
  update_self (set_qualities []) ;;
  entries <- getitem dictionary "qualities" ;;
  items <- py_iter entries ;;
  for_each items (fun quality =>
    constructed <- Quality_no_arguments ;;
    match constructed : Empty_set with end).

(** ** Survey *)

Record Survey : Type := mkSurvey {
  participant : value;
  config : value;
  date : value;
  startTime : value;
  endTime : value;
  projectedFields : list ProjectedField
}.

(** [Survey(participant, config)], the other fields at their defaults. *)
Definition Survey_init (participant config : value) : Survey :=
  mkSurvey participant config (VStr "") (VStr "") (VStr "") [].

Definition set_participant (v : value) (s : Survey) : Survey :=
  mkSurvey v (config s) (date s) (startTime s) (endTime s) (projectedFields s).
Definition set_config (v : value) (s : Survey) : Survey :=
  mkSurvey (participant s) v (date s) (startTime s) (endTime s)
           (projectedFields s).
Definition set_date (v : value) (s : Survey) : Survey :=
  mkSurvey (participant s) (config s) v (startTime s) (endTime s)
           (projectedFields s).
Definition set_startTime (v : value) (s : Survey) : Survey :=
  mkSurvey (participant s) (config s) (date s) v (endTime s)
           (projectedFields s).
Definition set_endTime (v : value) (s : Survey) : Survey :=
  mkSurvey (participant s) (config s) (date s) (startTime s) v
           (projectedFields s).
Definition set_projectedFields (fs : list ProjectedField) (s : Survey)
  : Survey :=
  mkSurvey (participant s) (config s) (date s) (startTime s) (endTime s) fs.

Definition Survey_startDateTimeNow : Py Survey unit :=
  now <- datetime_now ;;
  update_self (set_date (VStr (strftime_Ymd now))) ;;
  update_self (set_startTime (VStr (strftime_HMS now))).

Definition Survey_endTimeNow : Py Survey unit :=
  now <- datetime_now ;;
  update_self (set_endTime (VStr (strftime_HMS now))).

Definition Survey_toDict (self : Survey) : dict :=
  let projectedFieldsDict :=
    map (fun field => VDict (ProjectedField_toDict field))
        (projectedFields self) in
  [ ("participant", participant self);
    ("config", config self);
    ("date", date self);
    ("startTime", startTime self);
    ("endTime", endTime self);
    ("projectedFields", VList projectedFieldsDict) ].

(** [ProjectedField.fromDict(field)]: the method is taken from the class, so
    [field] is bound to [self] and [dictionary] is left without a value. *)
Definition ProjectedField_fromDict_unbound {S : Type} (field : value)
  : Py S Empty_set :=
  raise (TypeError
    "ProjectedField.fromDict() missing 1 required positional argument: 'dictionary'").

Definition Survey_fromDict (dictionary : dict) : Py Survey unit :=
  v <- getitem dictionary "participant" ;; update_self (set_participant v) ;;
  v <- getitem dictionary "config" ;; update_self (set_config v) ;;
  v <- getitem dictionary "date" ;; update_self (set_date v) ;;
  v <- getitem dictionary "startTime" ;; update_self (set_startTime v) ;;
  v <- getitem dictionary "endTime" ;; update_self (set_endTime v) ;;
  update_self (set_projectedFields []) ;;
  entries <- getitem dictionary "projectedFields" ;;
  items <- py_iter entries ;;
  for_each items (fun field =>
    constructed <- ProjectedField_fromDict_unbound field ;;
    match constructed : Empty_set with end).

(** The truth value of a list in a condition: empty is false. *)
Definition list_truth {A : Type} (l : list A) : bool :=
  match l with
  | [] => false
  | _ :: _ => true
  end.

(** ** SurveyManager *)

(** The state of a manager once [__init__] has loaded the participant
    configuration: [survey] is [None] or the ongoing survey, and
    [mgr_config] is the manager's [config] (the survey has a field of that
    name too). *)
Record SurveyManager : Type := mkSurveyManager {
  survey : option Survey;
  mgr_config : dict;
  data_path : string
}.

Definition set_survey (s : option Survey) (m : SurveyManager)
  : SurveyManager :=
  mkSurveyManager s (mgr_config m) (data_path m).

(** The truth value of [self.survey]: a [Survey] defines neither [__bool__]
    nor [__len__], so only [None] is false. *)
Definition survey_truth (s : option Survey) : bool :=
  match s with
  | Some _ => true
  | None => false
  end.

(** [self.survey.method(...)]: the method runs on the manager's survey and
    its changes stay in the manager; on [None] the attribute is missing. *)
Definition on_survey {A : Type} (method : string) (body : Py Survey A)
  : Py SurveyManager A :=
  fun self w =>
    match survey self with
    | Some s =>
        match body s w with
        | (r, s', w') => (r, set_survey (Some s') self, w')
        end
    | None =>
        (Raises (AttributeError
           ("'NoneType' object has no attribute '" +:+ method +:+ "'")),
         self, w)
    end.

(** The messages of the module. *)
Definition msg_saving (filename : string) : string :=
  "Saving survey to " +:+ filename +:+ "...".
Definition msg_no_fields : string :=
  "Survey cannot be saved without any projected fields!".
Definition msg_ongoing : string :=
  "Cannot begin new survey; there is already an ongoing survey.".
Definition msg_unknown : string :=
  "Cannot begin new survey; given participant is not in participant config.".

Section Methods.

(** [repr] of Python, which the module reaches through string
    formatting; it is not part of the repository. *)
Variable py_repr : value -> string.

(** A value inside an f-string: a string stands for itself, the other
    values for their [repr]. *)
Definition py_format (v : value) : string :=
  match v with
  | VStr s => s
  | _ => py_repr v
  end.

Definition Survey_filename (self : Survey) : string :=
  py_format (participant self) +:+ "_" +:+ py_format (date self) +:+ "_"
    +:+ py_format (startTime self) +:+ ".json".

Definition Survey_saveSurvey (path : string) : Py Survey bool :=
  self <- get_self ;;
  if list_truth (projectedFields self) then
    let filename := Survey_filename self in
    print (msg_saving filename) ;;
    write_json (os_path_join path filename) (VDict (Survey_toDict self)) 4 ;;
    ret true
  else
    print msg_no_fields ;;
    ret false.

Definition SurveyManager_newSurvey (participant : string)
  : Py SurveyManager value :=
  self <- get_self ;;
  if survey_truth (survey self) then
    print msg_ongoing ;;
    ret (VBool false)
  else
    if dict_contains participant (mgr_config self) then
      entry <- getitem (mgr_config self) participant ;;
      update_self (set_survey (Some (Survey_init (VStr participant) entry))) ;;
      on_survey "startDateTimeNow" Survey_startDateTimeNow ;;
      ret (VBool true)
    else
      print msg_unknown ;;
      ret VNone.

Definition SurveyManager_saveSurvey : Py SurveyManager bool :=
  on_survey "endTimeNow" Survey_endTimeNow ;;
  self <- get_self ;;
  saved <- on_survey "saveSurvey" (Survey_saveSurvey (data_path self)) ;;
  if saved then
    update_self (set_survey None) ;;
    ret true
  else
    ret false.

End Methods.

(** ** A session to run the methods on *)

(** The participant configuration [{"p1": {"arm": "left"}}], a field on the
    chest of the torso model with one quality, and a clock that reads
    2024-05-17 09:30:05. *)
Definition sample_quality : Quality :=
  mkQuality (VFloat 0.5) (VFloat 0.25) (VFloat 0.75) (VStr "deep") (VStr "sharp").

Definition sample_field : ProjectedField :=
  mkProjectedField (VStr "torso") (VStr "chest")
                   (VList [VInt 1; VInt 2; VInt 3]) (VList [VInt 2])
                   [sample_quality].

Definition sample_config : dict := [("p1", VDict [("arm", VStr "left")])].

(** The directories "data" and "/tmp" exist and can be written to; no other
    directory exists. *)
Definition sample_open_error (path : string) : option string :=
  if String.prefix "data/" path || String.prefix "/tmp/" path then None
  else Some "FileNotFoundError".

Definition sample_world : World :=
  mkWorld ∅ [] (mkDatetime 2024 5 17 9 30 5) sample_open_error.

Definition idle_manager : SurveyManager :=
  mkSurveyManager None sample_config "data".

(** The survey that [newSurvey("p1")] starts in [sample_world], and the
    same survey with one projected field. *)
Definition started_survey : Survey :=
  mkSurvey (VStr "p1") (VDict [("arm", VStr "left")])
           (VStr "2024-05-17") (VStr "09-30-05") (VStr "") [].

Definition filled_survey : Survey :=
  set_projectedFields [sample_field] started_survey.

Definition started_manager : SurveyManager :=
  set_survey (Some started_survey) idle_manager.

Definition filled_manager : SurveyManager :=
  set_survey (Some filled_survey) idle_manager.

(** A manager whose data path is a directory that does not exist, and the
    session's survey for a participant whose name is an absolute path. *)
Definition lost_manager : SurveyManager :=
  mkSurveyManager (Some filled_survey) sample_config "nodir".


(** A later reading of the clock, a mapping with one key more than a
    quality needs, given out of order, and a mapping that ends before
    "pain". *)
Definition later_world : World :=
  mkWorld ∅ [] (mkDatetime 2024 5 17 9 45 10) sample_open_error.

Definition sample_mapping : dict :=
  [ ("type", VStr "dull"); ("side", VStr "left"); ("intensity", VInt 1);
    ("naturalness", VInt 2); ("pain", VInt 3); ("depth", VStr "skin") ].

Definition short_mapping : dict :=
  [ ("intensity", VInt 1); ("naturalness", VInt 2) ].

(** The session formats strings only, so [repr] is never consulted in it;
    this function stands where it is expected. *)
Definition repr_unused : value -> string := fun _ => "".

(** ** Dictionary conversion *)

Lemma dict_contains_get (key : string) (d : dict) :
  dict_contains key d = true <-> exists v, dict_get key d = Some v.
Proof.
  unfold dict_contains. destruct (dict_get key d) as [v|].
  - split; [eauto | reflexivity].
  - split; [discriminate | intros [v H]; discriminate].
Qed.

Lemma dict_contains_false (key : string) (d : dict) :
  dict_contains key d = false <-> dict_get key d = None.
Proof.
  unfold dict_contains. destruct (dict_get key d); split; congruence.
Qed.

(** X1. A quality is rebuilt from its own dictionary, whatever the
    receiving object held before, and nothing else changes. *)
Lemma Quality_roundtrip (q self : Quality) (w : World) :
  Quality_fromDict (Quality_toDict q) self w = (Returns tt, q, w).
Proof. destruct q. reflexivity. Qed.

(** C8. [Quality.fromDict] succeeds exactly when the mapping has all five
    keys, and then every field holds the mapping's value for its key;
    when a key is absent it raises [KeyError] (the missing-field error)
    for an absent key among the five. *)
Theorem Quality_fromDict_keys (dictionary : dict) (self : Quality) (w : World) :
  (forallb (fun k => dict_contains k dictionary) Quality_keys = true ->
   exists i n p dp t,
     dict_get "intensity" dictionary = Some i /\
     dict_get "naturalness" dictionary = Some n /\
     dict_get "pain" dictionary = Some p /\
     dict_get "depth" dictionary = Some dp /\
     dict_get "type" dictionary = Some t /\
     Quality_fromDict dictionary self w = (Returns tt, mkQuality i n p dp t, w)) /\
  (forallb (fun k => dict_contains k dictionary) Quality_keys = false ->
   exists k self',
     In k Quality_keys /\ dict_get k dictionary = None /\
     Quality_fromDict dictionary self w = (Raises (KeyError k), self', w)).
Proof.
  unfold Quality_fromDict, getitem, dict_contains, Quality_keys.
  cbn [forallb].
  destruct (dict_get "intensity" dictionary) as [i|] eqn:Hi;
    [ destruct (dict_get "naturalness" dictionary) as [n|] eqn:Hn;
      [ destruct (dict_get "pain" dictionary) as [p|] eqn:Hp;
        [ destruct (dict_get "depth" dictionary) as [dp|] eqn:Hd;
          [ destruct (dict_get "type" dictionary) as [t|] eqn:Ht | ] | ] | ] | ];
    cbn [andb]; (split; [intros Hall | intros Hsome]); try discriminate.
  - exists i, n, p, dp, t. repeat (split; [reflexivity|]). reflexivity.
  - exists "type". eexists. split; [cbn; tauto|]. split; [exact Ht|].
    reflexivity.
  - exists "depth". eexists. split; [cbn; tauto|]. split; [exact Hd|].
    reflexivity.
  - exists "pain". eexists. split; [cbn; tauto|]. split; [exact Hp|].
    reflexivity.
  - exists "naturalness". eexists. split; [cbn; tauto|]. split; [exact Hn|].
    reflexivity.
  - exists "intensity". eexists. split; [cbn; tauto|]. split; [exact Hi|].
    reflexivity.
Qed.

(** X7. A survey without projected fields is rebuilt from its own
    dictionary, whatever the receiving survey held before. *)
Lemma Survey_roundtrip_without_fields (s self : Survey) (w : World) :
  projectedFields s = [] ->
  Survey_fromDict (Survey_toDict s) self w = (Returns tt, s, w).
Proof. destruct s as [p c d st e fs]. cbn. intros ->. reflexivity. Qed.

(** A loop whose body stops at a call that raises ends at its first item. *)
Lemma for_each_raises {S A : Type} (e : exn) (x : A) (rest : list A)
      (stop : A -> Py S Empty_set) (self : S) (w : World) :
  (forall a s' w', stop a s' w' = (Raises e, s', w')) ->
  for_each (x :: rest)
    (fun a => constructed <- stop a ;; match constructed : Empty_set with end)
    self w
  = (Raises e, self, w).
Proof. intros Hstop. cbn. unfold bind. rewrite Hstop. reflexivity. Qed.

(** Whenever [ProjectedField.fromDict] returns, it has reconstructed no
    quality: the mapping's sequence of qualities was empty. *)
Lemma ProjectedField_fromDict_returns_no_quality
      (dictionary : dict) (self self' : ProjectedField) (w w' : World) :
  ProjectedField_fromDict dictionary self w = (Returns tt, self', w') ->
  qualities self' = [].
Proof.
  unfold ProjectedField_fromDict, getitem, bind.
  repeat match goal with
         | |- context [dict_get ?k dictionary] =>
             destruct (dict_get k dictionary); cbn; try discriminate
         end.
  match goal with
  | |- context [py_iter ?v] => destruct v as [| | | | s | items | bindings]
  end; cbn; try discriminate.
  - destruct (characters s); cbn; [|discriminate].
    intros H; inversion H; reflexivity.
  - destruct items; cbn; [|discriminate].
    intros H; inversion H; reflexivity.
  - destruct bindings; cbn; [|discriminate].
    intros H; inversion H; reflexivity.
Qed.

(** C1. The dictionary of a projected field cannot be read back:
    [fromDict] looks up the key "vertices", which [toDict] never writes,
    and raises [KeyError] after it has set [model] and [name].  The
    dictionary of a survey with a projected field cannot be read back
    either: the loop over its fields raises [TypeError] at the first one. *)
Theorem fromDict_toDict_raises :
  (forall (field self : ProjectedField) (w : World),
     ProjectedField_fromDict (ProjectedField_toDict field) self w
     = (Raises (KeyError "vertices"),
        set_name (name field) (set_model (model field) self), w)) /\
  (forall (s self : Survey) (w : World),
     projectedFields s <> [] ->
     Survey_fromDict (Survey_toDict s) self w
     = (Raises (TypeError
          "ProjectedField.fromDict() missing 1 required positional argument: 'dictionary'"),
        set_projectedFields [] s, w)).
Proof.
  split.
  - intros field self w. reflexivity.
  - intros [p c d st e fs] self w Hfs. cbn in Hfs.
    destruct fs as [|f fs]; [congruence|]. reflexivity.
Qed.

(** C2. The dictionary of a projected field has the five keys model,
    name, verices, hotSpot and qualities, in this order: the sequence of
    vertices is stored under "verices", and there is no key "vertices". *)
Theorem ProjectedField_toDict_keys (field : ProjectedField) :
  dict_keys (ProjectedField_toDict field)
  = ["model"; "name"; "verices"; "hotSpot"; "qualities"] /\
  dict_get "verices" (ProjectedField_toDict field) = Some (vertices field) /\
  dict_get "vertices" (ProjectedField_toDict field) = None.
Proof. repeat split. Qed.

(** X5. Even a mapping that has the key "vertices" is not read back once
    its list of qualities has an entry: the loop stops at [Quality()] with
    [TypeError], when the four plain fields are already overwritten and the
    qualities emptied. *)
Lemma ProjectedField_fromDict_stops_at_Quality
      (dictionary : dict) (m n v h first : value) (others : list value)
      (self : ProjectedField) (w : World) :
  dict_get "model" dictionary = Some m ->
  dict_get "name" dictionary = Some n ->
  dict_get "vertices" dictionary = Some v ->
  dict_get "hotSpot" dictionary = Some h ->
  dict_get "qualities" dictionary = Some (VList (first :: others)) ->
  ProjectedField_fromDict dictionary self w
  = (Raises (TypeError
       "Quality.__init__() missing 5 required positional arguments: 'intensity', 'naturalness', 'pain', 'depth', and 'type'"),
     mkProjectedField m n v h [], w).
Proof.
  intros Hm Hn Hv Hh Hq. unfold ProjectedField_fromDict, getitem, bind.
  rewrite Hm, Hn, Hv, Hh, Hq. cbn -[for_each].
  apply (for_each_raises _ first others (fun _ => Quality_no_arguments)).
  reflexivity.
Qed.

(** ** Saving a survey and the manager's life cycle *)

(** In the ordinary case, a relative file name in a named directory, the
    path is the directory, a separator and the file name. *)
Lemma os_path_join_plain (a b : string) :
  startswith_sep b = false -> a <> "" -> endswith_sep a = false ->
  os_path_join a b = a +:+ "/" +:+ b.
Proof.
  intros Hb Ha Hsep. unfold os_path_join. rewrite Hb, Hsep.
  destruct (String.eqb_spec a ""); [contradiction | reflexivity].
Qed.

Lemma fields_or_none {A : Type} (l : list A) : l = [] \/ l <> [].
Proof. destruct l; [left; reflexivity | right; discriminate]. Qed.

Lemma list_truth_false {A : Type} (l : list A) :
  list_truth l = false <-> l = [].
Proof. destruct l; cbn; split; congruence. Qed.

Lemma list_truth_true {A : Type} (l : list A) :
  list_truth l = true <-> l <> [].
Proof. destruct l; cbn; split; congruence. Qed.

Section Properties.

Variable py_repr : value -> string.

(** The file name of a survey whose participant, date and start time are
    strings, as they are in every survey that [newSurvey] starts. *)
Lemma Survey_filename_strings (s : Survey) (p d t : string) :
  participant s = VStr p -> date s = VStr d -> startTime s = VStr t ->
  Survey_filename py_repr s = p +:+ "_" +:+ d +:+ "_" +:+ t +:+ ".json".
Proof.
  intros Hp Hd Ht. unfold Survey_filename. rewrite Hp, Hd, Ht. reflexivity.
Qed.

(** The three runs of [Survey.saveSurvey]: without projected fields, with
    a file that opens, and with a file that does not. *)
Lemma Survey_save_empty (path : string) (s : Survey) (w : World) :
  projectedFields s = [] ->
  Survey_saveSurvey py_repr path s w
  = (Returns false, s, with_line msg_no_fields w).
Proof.
  intros Hnone. unfold Survey_saveSurvey, bind, get_self.
  apply list_truth_false in Hnone. rewrite Hnone. reflexivity.
Qed.

Lemma Survey_save_written (path : string) (s : Survey) (w : World) :
  projectedFields s <> [] ->
  open_error w (os_path_join path (Survey_filename py_repr s)) = None ->
  Survey_saveSurvey py_repr path s w
  = (Returns true, s,
     with_file (os_path_join path (Survey_filename py_repr s))
       (JsonText 4 (VDict (Survey_toDict s)))
       (with_line (msg_saving (Survey_filename py_repr s)) w)).
Proof.
  intros Hsome Hopen. unfold Survey_saveSurvey, bind, get_self.
  apply list_truth_true in Hsome. rewrite Hsome.
  unfold print, write_json. cbn [open_error with_line]. rewrite Hopen.
  reflexivity.
Qed.

Lemma Survey_save_refused (path kind : string) (s : Survey) (w : World) :
  projectedFields s <> [] ->
  open_error w (os_path_join path (Survey_filename py_repr s)) = Some kind ->
  Survey_saveSurvey py_repr path s w
  = (Raises (OSError kind (os_path_join path (Survey_filename py_repr s))),
     s, with_line (msg_saving (Survey_filename py_repr s)) w).
Proof.
  intros Hsome Hopen. unfold Survey_saveSurvey, bind, get_self.
  apply list_truth_true in Hsome. rewrite Hsome.
  unfold print, write_json. cbn [open_error with_line]. rewrite Hopen.
  reflexivity.
Qed.




(** C10. [Survey.saveSurvey] leaves the survey as it was, however it
    ends: when it returns [True], when it returns [False], and when
    [open] raises, all six fields keep their values.  It ends in no other
    way. *)
Theorem Survey_saveSurvey_frame (path : string) (s : Survey) (w : World) :
  exists (r : outcome bool) (w' : World),
    Survey_saveSurvey py_repr path s w = (r, s, w') /\
    (r = Returns true \/ r = Returns false \/
     exists kind,
       open_error w (os_path_join path (Survey_filename py_repr s)) = Some kind /\
       r = Raises (OSError kind
                     (os_path_join path (Survey_filename py_repr s)))).
Proof.
  destruct (projectedFields s) as [|f fs] eqn:Hfs.
  - do 2 eexists. split; [apply Survey_save_empty; exact Hfs|]. auto.
  - destruct (open_error w (os_path_join path (Survey_filename py_repr s)))
      as [kind|] eqn:Hopen.
    + do 2 eexists. split.
      * apply (Survey_save_refused path kind); [rewrite Hfs; discriminate|].
        exact Hopen.
      * right. right. exists kind. auto.
    + do 2 eexists. split.
      * apply Survey_save_written; [rewrite Hfs; discriminate | exact Hopen].
      * auto.
Qed.

(** The runs of [SurveyManager.saveSurvey]. *)
Lemma saveSurvey_without_survey (m : SurveyManager) (w : World) :
  survey m = None ->
  SurveyManager_saveSurvey py_repr m w
  = (Raises (AttributeError
       "'NoneType' object has no attribute 'endTimeNow'"), m, w).
Proof.
  intros Hidle. unfold SurveyManager_saveSurvey, on_survey, bind.
  rewrite Hidle. reflexivity.
Qed.

Lemma saveSurvey_then (m : SurveyManager) (s : Survey) (w : World) :
  survey m = Some s ->
  SurveyManager_saveSurvey py_repr m w
  = match Survey_saveSurvey py_repr (data_path m)
            (set_endTime (VStr (strftime_HMS (clock w))) s) w with
    | (Returns true, s', w') => (Returns true, set_survey None m, w')
    | (Returns false, s', w') => (Returns false, set_survey (Some s') m, w')
    | (Raises e, s', w') => (Raises e, set_survey (Some s') m, w')
    end.
Proof.
  intros Hactive.
  unfold SurveyManager_saveSurvey, on_survey, bind, get_self.
  rewrite Hactive. destruct m as [sv cfg dp].
  cbn -[Survey_saveSurvey].
  destruct (Survey_saveSurvey py_repr dp
              (set_endTime (VStr (strftime_HMS (clock w))) s) w)
    as [[[[|]|e] s'] w']; reflexivity.
Qed.

Lemma saveSurvey_without_fields (m : SurveyManager) (s : Survey) (w : World) :
  survey m = Some s ->
  projectedFields s = [] ->
  SurveyManager_saveSurvey py_repr m w
  = (Returns false,
     set_survey (Some (set_endTime (VStr (strftime_HMS (clock w))) s)) m,
     with_line msg_no_fields w).
Proof.
  intros Hactive Hfs. rewrite (saveSurvey_then m s w Hactive).
  rewrite Survey_save_empty by exact Hfs. reflexivity.
Qed.

Lemma saveSurvey_with_fields (m : SurveyManager) (s : Survey) (w : World) :
  survey m = Some s ->
  projectedFields s <> [] ->
  open_error w (os_path_join (data_path m) (Survey_filename py_repr s)) = None ->
  SurveyManager_saveSurvey py_repr m w
  = (Returns true, set_survey None m,
     with_file (os_path_join (data_path m) (Survey_filename py_repr s))
       (JsonText 4
          (VDict (Survey_toDict
                    (set_endTime (VStr (strftime_HMS (clock w))) s))))
       (with_line (msg_saving (Survey_filename py_repr s)) w)).
Proof.
  intros Hactive Hfs Hopen. rewrite (saveSurvey_then m s w Hactive).
  rewrite Survey_save_written; [reflexivity | exact Hfs | exact Hopen].
Qed.

Lemma saveSurvey_not_opened (m : SurveyManager) (s : Survey) (w : World)
      (kind : string) :
  survey m = Some s ->
  projectedFields s <> [] ->
  open_error w (os_path_join (data_path m) (Survey_filename py_repr s))
  = Some kind ->
  SurveyManager_saveSurvey py_repr m w
  = (Raises (OSError kind
               (os_path_join (data_path m) (Survey_filename py_repr s))),
     set_survey (Some (set_endTime (VStr (strftime_HMS (clock w))) s)) m,
     with_line (msg_saving (Survey_filename py_repr s)) w).
Proof.
  intros Hactive Hfs Hopen. rewrite (saveSurvey_then m s w Hactive).
  rewrite (Survey_save_refused _ kind); [reflexivity | exact Hfs | exact Hopen].
Qed.

(** C4. On a manager with an ongoing survey, [saveSurvey] first sets the
    survey's end time to the clock's time and leaves its other fields,
    then saves it.  When the save succeeds (there are projected fields
    and the file opens), the document written to the data path has the
    new end time under "endTime", the manager's survey becomes [None] and
    [True] is returned.  When the save fails for want of projected
    fields, nothing is written, the manager keeps the survey, with the
    new end time, and [False] is returned.  When [open] raises, the
    manager keeps the survey in the same way and the error is raised. *)
Theorem SurveyManager_saveSurvey_active
        (m : SurveyManager) (s : Survey) (w : World) :
  survey m = Some s ->
  let stamped :=
    mkSurvey (participant s) (config s) (date s) (startTime s)
             (VStr (strftime_HMS (clock w))) (projectedFields s) in
  let filename := Survey_filename py_repr s in
  let target := os_path_join (data_path m) filename in
  dict_get "endTime" (Survey_toDict stamped)
  = Some (VStr (strftime_HMS (clock w))) /\
  (projectedFields s <> [] -> open_error w target = None ->
   SurveyManager_saveSurvey py_repr m w
   = (Returns true, mkSurveyManager None (mgr_config m) (data_path m),
      with_file target (JsonText 4 (VDict (Survey_toDict stamped)))
                (with_line (msg_saving filename) w))) /\
  (projectedFields s = [] ->
   SurveyManager_saveSurvey py_repr m w
   = (Returns false,
      mkSurveyManager (Some stamped) (mgr_config m) (data_path m),
      with_line msg_no_fields w)) /\
  (projectedFields s <> [] ->
   forall kind, open_error w target = Some kind ->
   SurveyManager_saveSurvey py_repr m w
   = (Raises (OSError kind target),
      mkSurveyManager (Some stamped) (mgr_config m) (data_path m),
      with_line (msg_saving filename) w)).
Proof.
  intros Hactive. cbv zeta. split; [reflexivity|].
  split; [|split].
  - intros Hfs Hopen.
    rewrite (saveSurvey_with_fields m s w Hactive Hfs Hopen). reflexivity.
  - intros Hfs.
    rewrite (saveSurvey_without_fields m s w Hactive Hfs). reflexivity.
  - intros Hfs kind Hopen.
    rewrite (saveSurvey_not_opened m s w kind Hactive Hfs Hopen). reflexivity.
Qed.

(** C9. On a manager without a survey, [saveSurvey] raises
    [AttributeError] at [self.survey.endTimeNow()]; it returns nothing
    and changes neither the manager nor the world. *)
Theorem SurveyManager_saveSurvey_idle (m : SurveyManager) (w : World) :
  survey m = None ->
  SurveyManager_saveSurvey py_repr m w
  = (Raises (AttributeError
       "'NoneType' object has no attribute 'endTimeNow'"), m, w).
Proof.
  intros Hidle. unfold SurveyManager_saveSurvey, on_survey, bind.
  destruct (survey m) as [s|]; [discriminate | reflexivity].
Qed.

(** C5. On a manager with an ongoing survey, [newSurvey] returns [False]
    for every participant, prints its message, and leaves the manager,
    and so the ongoing survey, as it was. *)
Theorem SurveyManager_newSurvey_active
        (m : SurveyManager) (s : Survey) (p : string) (w : World) :
  survey m = Some s ->
  SurveyManager_newSurvey p m w
  = (Returns (VBool false), m, with_line msg_ongoing w).
Proof.
  intros Hactive.
  unfold SurveyManager_newSurvey, bind, get_self.
  rewrite Hactive. reflexivity.
Qed.

(** A manager without a survey starts one for a participant of its
    configuration, dated from the clock. *)
Lemma SurveyManager_newSurvey_known
      (m : SurveyManager) (p : string) (entry : value) (w : World) :
  survey m = None ->
  dict_get p (mgr_config m) = Some entry ->
  SurveyManager_newSurvey p m w
  = (Returns (VBool true),
     set_survey
       (Some (mkSurvey (VStr p) entry (VStr (strftime_Ymd (clock w)))
                       (VStr (strftime_HMS (clock w))) (VStr "") []))
       m,
     w).
Proof.
  intros Hidle Hentry.
  unfold SurveyManager_newSurvey, bind, get_self, dict_contains, getitem.
  rewrite Hidle. cbn. rewrite Hentry. reflexivity.
Qed.

(** C6. On a manager without a survey, [newSurvey] for a participant
    that is not in the configuration raises nothing, prints its message
    and leaves the manager without a survey; the value it returns is
    [None], the result of a function body that ends without [return]. *)
Theorem SurveyManager_newSurvey_unknown
        (m : SurveyManager) (p : string) (w : World) :
  survey m = None ->
  dict_contains p (mgr_config m) = false ->
  SurveyManager_newSurvey p m w = (Returns VNone, m, with_line msg_unknown w).
Proof.
  intros Hidle Habsent.
  unfold SurveyManager_newSurvey, bind, get_self.
  rewrite Hidle. cbn. rewrite Habsent. reflexivity.
Qed.

(** C7, as the code has it.  A [newSurvey] that does not return [True]
    leaves the manager, and so its survey, as it was.  A [saveSurvey]
    that returns [False] had an ongoing survey and keeps it with its
    participant, configuration, date, start time and projected fields;
    the end time is the one read from the clock by this call. *)
Theorem failed_operation_effect (m m' : SurveyManager) (w w' : World) :
  (forall (p : string) (r : value),
     SurveyManager_newSurvey p m w = (Returns r, m', w') ->
     r <> VBool true -> m' = m) /\
  (SurveyManager_saveSurvey py_repr m w = (Returns false, m', w') ->
   exists s s',
     survey m = Some s /\ survey m' = Some s' /\
     participant s' = participant s /\ config s' = config s /\
     date s' = date s /\ startTime s' = startTime s /\
     projectedFields s' = projectedFields s /\
     endTime s' = VStr (strftime_HMS (clock w))).
Proof.
  split.
  - intros p r Hrun Hr.
    unfold SurveyManager_newSurvey, bind, get_self, dict_contains, getitem
      in Hrun.
    destruct (survey m) as [s|] eqn:Hs; cbn in Hrun.
    + inversion Hrun; reflexivity.
    + destruct (dict_get p (mgr_config m)) as [entry|]; cbn in Hrun.
      * inversion Hrun; subst; congruence.
      * inversion Hrun; reflexivity.
  - intros Hrun.
    destruct (survey m) as [s|] eqn:Hs.
    + destruct (fields_or_none (projectedFields s)) as [Hfs | Hfs].
      * rewrite (saveSurvey_without_fields m s w Hs Hfs) in Hrun.
        injection Hrun as <- _.
        exists s, (set_endTime (VStr (strftime_HMS (clock w))) s).
        repeat split.
      * destruct (open_error w
                    (os_path_join (data_path m) (Survey_filename py_repr s)))
          as [kind|] eqn:Hopen.
        -- rewrite (saveSurvey_not_opened m s w kind Hs Hfs Hopen) in Hrun.
           discriminate.
        -- rewrite (saveSurvey_with_fields m s w Hs Hfs Hopen) in Hrun.
           discriminate.
    + rewrite (saveSurvey_without_survey m w Hs) in Hrun. discriminate.
Qed.

End Properties.

(** ** The session, run *)

(** [newSurvey("p1")] on the idle manager starts the survey of the session. *)
Example newSurvey_p1 :
  SurveyManager_newSurvey "p1" idle_manager sample_world
  = (Returns (VBool true), started_manager, sample_world).
Proof. reflexivity. Qed.

(** The dictionary of the sample field is not read back, on any receiver. *)
Example sample_field_not_read_back :
  ProjectedField_fromDict (ProjectedField_toDict sample_field)
    (mkProjectedField VNone VNone VNone VNone []) sample_world
  = (Raises (KeyError "vertices"),
     mkProjectedField (VStr "torso") (VStr "chest") VNone VNone [],
     sample_world).
Proof. reflexivity. Qed.

(** The dictionary of the survey with one field is not read back. *)
Example filled_survey_not_read_back :
  Survey_fromDict (Survey_toDict filled_survey) (Survey_init VNone VNone)
    sample_world
  = (Raises (TypeError
       "ProjectedField.fromDict() missing 1 required positional argument: 'dictionary'"),
     started_survey, sample_world).
Proof. reflexivity. Qed.

(** [Quality.fromDict] on the sample quality's dictionary, and on a
    mapping without "pain", which it leaves half read. *)
Lemma Quality_fromDict_keys_run :
  Quality_fromDict (Quality_toDict sample_quality)
    (mkQuality VNone VNone VNone VNone VNone) sample_world
  = (Returns tt, sample_quality, sample_world) /\
  exists k self',
    In k Quality_keys /\
    dict_get k [("intensity", VInt 1); ("naturalness", VInt 2)] = None /\
    Quality_fromDict [("intensity", VInt 1); ("naturalness", VInt 2)]
      (mkQuality VNone VNone VNone VNone VNone) sample_world
    = (Raises (KeyError k), self', sample_world).
Proof.
  split.
  - destruct (proj1 (Quality_fromDict_keys (Quality_toDict sample_quality)
                       (mkQuality VNone VNone VNone VNone VNone) sample_world)
                eq_refl)
      as (i & n & p & dp & t & Hi & Hn & Hp & Hd & Ht & Hrun).
    rewrite Hrun. vm_compute in Hi, Hn, Hp, Hd, Ht.
    injection Hi as <-. injection Hn as <-. injection Hp as <-.
    injection Hd as <-. injection Ht as <-. reflexivity.
  - exact (proj2 (Quality_fromDict_keys
                    [("intensity", VInt 1); ("naturalness", VInt 2)]
                    (mkQuality VNone VNone VNone VNone VNone) sample_world)
                 eq_refl).
Defined.



(** [SurveyManager.saveSurvey] on the manager whose survey has a field:
    the file holds the survey with the end time 09-30-05 of the clock,
    which it did not have, and the manager is idle. *)
Lemma SurveyManager_saveSurvey_active_run :
  survey filled_manager = Some filled_survey /\
  endTime filled_survey = VStr "" /\
  SurveyManager_saveSurvey repr_unused filled_manager sample_world
  = (Returns true, idle_manager,
     mkWorld (<["data/p1_2024-05-17_09-30-05.json" :=
                 JsonText 4
                   (VDict (Survey_toDict
                             (mkSurvey (VStr "p1")
                                       (VDict [("arm", VStr "left")])
                                       (VStr "2024-05-17") (VStr "09-30-05")
                                       (VStr "09-30-05") [sample_field])))]> ∅)
             ["Saving survey to p1_2024-05-17_09-30-05.json..."]
             (clock sample_world) sample_open_error) /\
  SurveyManager_saveSurvey repr_unused started_manager later_world
  = (Returns false,
     mkSurveyManager
       (Some (mkSurvey (VStr "p1") (VDict [("arm", VStr "left")])
                       (VStr "2024-05-17") (VStr "09-30-05")
                       (VStr "09-45-10") []))
       sample_config "data",
     mkWorld ∅ ["Survey cannot be saved without any projected fields!"]
             (clock later_world) sample_open_error).
Proof.
  pose proof (SurveyManager_saveSurvey_active repr_unused filled_manager
                filled_survey sample_world eq_refl) as (_ & Hwritten & _).
  pose proof (SurveyManager_saveSurvey_active repr_unused started_manager
                started_survey later_world eq_refl) as (_ & _ & Hempty & _).
  split; [reflexivity|]. split; [reflexivity|].
  split; [apply Hwritten; [discriminate | reflexivity]|].
  apply Hempty. reflexivity.
Defined.

(** [SurveyManager.saveSurvey] on the idle manager. *)
Lemma SurveyManager_saveSurvey_idle_run :
  survey idle_manager = None /\
  SurveyManager_saveSurvey repr_unused idle_manager sample_world
  = (Raises (AttributeError "'NoneType' object has no attribute 'endTimeNow'"),
     idle_manager, sample_world).
Proof.
  split; [reflexivity|].
  apply (SurveyManager_saveSurvey_idle repr_unused idle_manager sample_world).
  reflexivity.
Defined.

(** A second [newSurvey] while the first survey is going on. *)
Lemma SurveyManager_newSurvey_active_run :
  survey started_manager = Some started_survey /\
  SurveyManager_newSurvey "p1" started_manager sample_world
  = (Returns (VBool false), started_manager,
     with_line msg_ongoing sample_world).
Proof.
  split; [reflexivity|].
  apply (SurveyManager_newSurvey_active started_manager started_survey "p1"
           sample_world).
  reflexivity.
Defined.

(** [newSurvey("nobody")] on the idle manager returns [None], not [False]. *)
Lemma SurveyManager_newSurvey_unknown_run :
  survey idle_manager = None /\
  dict_contains "nobody" (mgr_config idle_manager) = false /\
  SurveyManager_newSurvey "nobody" idle_manager sample_world
  = (Returns VNone, idle_manager, with_line msg_unknown sample_world) /\
  VNone <> VBool false.
Proof.
  split; [reflexivity|]. split; [reflexivity|]. split; [|discriminate].
  apply (SurveyManager_newSurvey_unknown idle_manager "nobody" sample_world);
    reflexivity.
Defined.

(** C7, as stated, fails: [saveSurvey] on the manager whose survey has no
    field returns [False], and the survey it keeps has the end time
    "09-30-05" where it had the empty string. *)
Lemma saveSurvey_failure_moves_endTime :
  SurveyManager_saveSurvey repr_unused started_manager sample_world
  = (Returns false,
     set_survey (Some (set_endTime (VStr "09-30-05") started_survey))
                started_manager,
     with_line msg_no_fields sample_world) /\
  endTime started_survey = VStr "" /\
  survey (set_survey (Some (set_endTime (VStr "09-30-05") started_survey))
                     started_manager)
  <> survey started_manager.
Proof.
  split; [reflexivity|]. split; [reflexivity|]. cbn. discriminate.
Qed.

(** The failed [saveSurvey] of the session moved the end time only. *)
Lemma failed_operation_effect_run :
  exists s s',
    survey started_manager = Some s /\
    survey (set_survey (Some (set_endTime (VStr "09-30-05") started_survey))
                       started_manager) = Some s' /\
    participant s' = participant s /\ config s' = config s /\
    date s' = date s /\ startTime s' = startTime s /\
    projectedFields s' = projectedFields s /\
    endTime s' = VStr (strftime_HMS (clock sample_world)).
Proof.
  apply (proj2 (failed_operation_effect repr_unused started_manager
                  (set_survey
                     (Some (set_endTime (VStr "09-30-05") started_survey))
                     started_manager)
                  sample_world (with_line msg_no_fields sample_world))).
  reflexivity.
Defined.

(** ** More on the dictionary conversion *)

(** A loop whose body stops at a call that raises: it returns on no item
    and raises on the first one, and changes nothing either way. *)
Lemma for_each_stop {S A : Type} (e : exn) (items : list A)
      (stop : A -> Py S Empty_set) (self : S) (w : World) :
  (forall a s' w', stop a s' w' = (Raises e, s', w')) ->
  for_each items
    (fun a => constructed <- stop a ;; match constructed : Empty_set with end)
    self w
  = (match items with [] => Returns tt | _ :: _ => Raises e end, self, w).
Proof.
  intros Hstop. destruct items as [|x rest]; [reflexivity|].
  cbn. unfold bind. rewrite Hstop. reflexivity.
Qed.

(** X2. When [Quality.fromDict] returns, the dictionary of the quality it
    has filled has the five keys, each with the mapping's value: whatever
    else the mapping held is dropped. *)
Theorem Quality_toDict_fromDict
        (dictionary : dict) (self q : Quality) (w w' : World) :
  Quality_fromDict dictionary self w = (Returns tt, q, w') ->
  dict_keys (Quality_toDict q) = Quality_keys /\
  forall k, In k Quality_keys ->
            dict_get k (Quality_toDict q) = dict_get k dictionary.
Proof.
  unfold Quality_fromDict, getitem, bind.
  destruct (dict_get "intensity" dictionary) as [i|] eqn:Hi;
    cbn; [|discriminate].
  destruct (dict_get "naturalness" dictionary) as [n|] eqn:Hn;
    cbn; [|discriminate].
  destruct (dict_get "pain" dictionary) as [p|] eqn:Hp; cbn; [|discriminate].
  destruct (dict_get "depth" dictionary) as [dp|] eqn:Hd; cbn; [|discriminate].
  destruct (dict_get "type" dictionary) as [t|] eqn:Ht; cbn; [|discriminate].
  intros Hrun. injection Hrun as <- _. split; [reflexivity|].
  intros k [<- | [<- | [<- | [<- | [<- | []]]]]]; cbn; congruence.
Qed.

(** X3. [Quality.fromDict] reads the keys in the order intensity,
    naturalness, pain, depth, type and stops at the first one that is
    absent: it raises [KeyError] for that key, the fields read before it
    hold the mapping's values, and the field of that key and the later
    ones keep what the object held. *)
Theorem Quality_fromDict_first_missing
        (dictionary : dict) (self : Quality) (w : World)
        (before after : list string) (k : string) :
  Quality_keys = (before ++ k :: after)%list ->
  (forall k', In k' before -> dict_contains k' dictionary = true) ->
  dict_contains k dictionary = false ->
  exists self',
    Quality_fromDict dictionary self w = (Raises (KeyError k), self', w) /\
    (forall k', In k' before ->
                dict_get k' (Quality_toDict self') = dict_get k' dictionary) /\
    (forall k', In k' (k :: after) ->
                dict_get k' (Quality_toDict self')
                = dict_get k' (Quality_toDict self)).
Proof.
  intros Hkeys Hbefore Hk. unfold dict_contains in Hk, Hbefore.
  assert (Hget : forall k', In k' before ->
                            exists v, dict_get k' dictionary = Some v).
  { intros k' Hin. specialize (Hbefore k' Hin).
    destruct (dict_get k' dictionary) as [v|]; [eauto | discriminate]. }
  destruct (dict_get k dictionary) eqn:Hnone; [discriminate|]. clear Hk.
  unfold Quality_keys in Hkeys.
  destruct self as [si sn sp sd st].
  unfold Quality_fromDict, getitem, bind.
  destruct before as [|b1 [|b2 [|b3 [|b4 [|b5 more]]]]];
    cbn in Hkeys; injection Hkeys as; subst;
    repeat match goal with
           | |- context [dict_get ?key dictionary] =>
               first
                 [ rewrite Hnone
                 | let v := fresh "v" in
                   let Hv := fresh "Hv" in
                   destruct (Hget key ltac:(cbn; tauto)) as [v Hv];
                   rewrite Hv ]
           end; cbn.
  all: try (destruct more; discriminate).
  all: eexists; split; [reflexivity|]; split;
    [ intros k' Hin; cbn in Hin;
      repeat (destruct Hin as [<- | Hin]; [cbn; congruence|]);
      contradiction
    | intros k' Hin; cbn in Hin;
      repeat (destruct Hin as [<- | Hin]; [reflexivity|]);
      contradiction ].
Qed.

(** What a [for] loop finds nothing in: the empty list, the empty
    dictionary and the empty string. *)
Lemma py_iter_cases {S : Type} (v : value) (self : S) (w : World) :
  (exists items, py_iter v self w = (Returns items, self, w) /\
                 (items = [] <-> v = VList [] \/ v = VDict [] \/ v = VStr "")) \/
  (exists msg, py_iter v self w = (Raises (TypeError msg), self, w) /\
               v <> VList [] /\ v <> VDict [] /\ v <> VStr "").
Proof.
  destruct v as [| b | n | x | s | items | bindings]; cbn;
    try (right; eexists; split; [reflexivity|]; repeat split; discriminate).
  - left. eexists. split; [reflexivity|]. destruct s; cbn; split.
    + auto.
    + reflexivity.
    + discriminate.
    + intros [H | [H | H]]; discriminate.
  - left. eexists. split; [reflexivity|]. destruct items; split.
    + auto.
    + reflexivity.
    + discriminate.
    + intros [H | [H | H]]; discriminate.
  - left. eexists. split; [reflexivity|]. destruct bindings; cbn; split.
    + auto.
    + reflexivity.
    + discriminate.
    + intros [H | [H | H]]; discriminate.
Qed.

(** Running a sequence: the second part runs when the first returns. *)
Lemma bind_run {S A B : Type} (m : Py S A) (k : A -> Py S B)
      (self : S) (w : World) :
  bind m k self w
  = match m self w with
    | (Returns a, self', w') => k a self' w'
    | (Raises e, self', w') => (Raises e, self', w')
    end.
Proof. reflexivity. Qed.

Ltac run_step :=
  rewrite bind_run;
  cbv beta iota delta [ret raise update_self get_self].

(** The tail of [ProjectedField.fromDict], from [self.qualities = []] on,
    once the four plain fields are read. *)
Lemma ProjectedField_fromDict_tail
      (dictionary : dict) (m n v h : value) (self : ProjectedField) (w : World) :
  dict_get "model" dictionary = Some m ->
  dict_get "name" dictionary = Some n ->
  dict_get "vertices" dictionary = Some v ->
  dict_get "hotSpot" dictionary = Some h ->
  exists r,
    ProjectedField_fromDict dictionary self w
    = (r, mkProjectedField m n v h [], w) /\
    (r = Returns tt <->
     exists q, dict_get "qualities" dictionary = Some q /\
               (q = VList [] \/ q = VDict [] \/ q = VStr "")).
Proof.
  intros Hm Hn Hv Hh. destruct self as [m0 n0 v0 h0 q0].
  unfold ProjectedField_fromDict, getitem.
  rewrite Hm, Hn, Hv, Hh. do 9 run_step.
  cbv beta iota delta [set_model set_name set_vertices set_hotSpot
                       set_qualities model name vertices hotSpot qualities].
  run_step.
  destruct (dict_get "qualities" dictionary) as [q|] eqn:Hq.
  - cbv beta iota. run_step.
    destruct (py_iter_cases q (mkProjectedField m n v h []) w)
      as [(items & Hrun & Hempty) | (msg & Hrun & Hne1 & Hne2 & Hne3)];
      rewrite Hrun.
    + pose proof (for_each_stop
                 (TypeError
                    "Quality.__init__() missing 5 required positional arguments: 'intensity', 'naturalness', 'pain', 'depth', and 'type'")
                 items (fun _ => @Quality_no_arguments ProjectedField)
                 (mkProjectedField m n v h []) w) as Hloop.
      cbv beta in Hloop. rewrite Hloop by reflexivity.
      eexists. split; [reflexivity|].
      destruct items as [|x rest]; split.
      * intros _. exists q. split; [reflexivity|]. apply Hempty. reflexivity.
      * reflexivity.
      * discriminate.
      * intros (q' & Hq' & Hcase). injection Hq' as <-.
        apply Hempty in Hcase. discriminate.
    + eexists. split; [reflexivity|]. split; [discriminate|].
      intros (q' & Hq' & [H | [H | H]]); injection Hq' as <-; contradiction.
  - cbv beta iota. eexists. split; [reflexivity|]. split; [discriminate|].
    intros (q' & Hq' & _). discriminate.
Qed.

(** The tail of [Survey.fromDict], from [self.projectedFields = []] on,
    once the five plain fields are read. *)
Lemma Survey_fromDict_tail
      (dictionary : dict) (p c d st e : value) (self : Survey) (w : World) :
  dict_get "participant" dictionary = Some p ->
  dict_get "config" dictionary = Some c ->
  dict_get "date" dictionary = Some d ->
  dict_get "startTime" dictionary = Some st ->
  dict_get "endTime" dictionary = Some e ->
  exists r,
    Survey_fromDict dictionary self w = (r, mkSurvey p c d st e [], w) /\
    (r = Returns tt <->
     exists fs, dict_get "projectedFields" dictionary = Some fs /\
                (fs = VList [] \/ fs = VDict [] \/ fs = VStr "")).
Proof.
  intros Hp Hc Hd Hst He. destruct self as [p0 c0 d0 st0 e0 fs0].
  unfold Survey_fromDict, getitem.
  rewrite Hp, Hc, Hd, Hst, He. do 11 run_step.
  cbv beta iota delta [set_participant set_config set_date set_startTime
                       set_endTime set_projectedFields participant config
                       date startTime endTime projectedFields].
  run_step.
  destruct (dict_get "projectedFields" dictionary) as [fs|] eqn:Hfs.
  - cbv beta iota. run_step.
    destruct (py_iter_cases fs (mkSurvey p c d st e []) w)
      as [(items & Hrun & Hempty) | (msg & Hrun & Hne1 & Hne2 & Hne3)];
      rewrite Hrun.
    + pose proof (for_each_stop
                 (TypeError
                    "ProjectedField.fromDict() missing 1 required positional argument: 'dictionary'")
                 items (@ProjectedField_fromDict_unbound Survey)
                 (mkSurvey p c d st e []) w) as Hloop.
      cbv beta in Hloop. rewrite Hloop by reflexivity.
      eexists. split; [reflexivity|].
      destruct items as [|x rest]; split.
      * intros _. exists fs. split; [reflexivity|]. apply Hempty. reflexivity.
      * reflexivity.
      * discriminate.
      * intros (fs' & Hfs' & Hcase). injection Hfs' as <-.
        apply Hempty in Hcase. discriminate.
    + eexists. split; [reflexivity|]. split; [discriminate|].
      intros (fs' & Hfs' & [H | [H | H]]); injection Hfs' as <-; contradiction.
  - cbv beta iota. eexists. split; [reflexivity|]. split; [discriminate|].
    intros (fs' & Hfs' & _). discriminate.
Qed.

(** X4. [ProjectedField.fromDict] returns exactly on a mapping that has
    the keys model, name, vertices, hotSpot and qualities with nothing to
    iterate over under qualities; the field then holds the four values
    and no quality.  On every other mapping it raises. *)
Theorem ProjectedField_fromDict_returns
        (dictionary : dict) (self self' : ProjectedField) (w w' : World) :
  ProjectedField_fromDict dictionary self w = (Returns tt, self', w') <->
  exists m n v h q,
    dict_get "model" dictionary = Some m /\
    dict_get "name" dictionary = Some n /\
    dict_get "vertices" dictionary = Some v /\
    dict_get "hotSpot" dictionary = Some h /\
    dict_get "qualities" dictionary = Some q /\
    (q = VList [] \/ q = VDict [] \/ q = VStr "") /\
    self' = mkProjectedField m n v h [] /\ w' = w.
Proof.
  split.
  - intros Hrun.
    destruct (dict_get "model" dictionary) as [m|] eqn:Hm;
      [|unfold ProjectedField_fromDict, getitem in Hrun;
        rewrite Hm in Hrun; discriminate].
    destruct (dict_get "name" dictionary) as [n|] eqn:Hn;
      [|unfold ProjectedField_fromDict, getitem in Hrun;
        rewrite Hm, Hn in Hrun; discriminate].
    destruct (dict_get "vertices" dictionary) as [v|] eqn:Hv;
      [|unfold ProjectedField_fromDict, getitem in Hrun;
        rewrite Hm, Hn, Hv in Hrun; discriminate].
    destruct (dict_get "hotSpot" dictionary) as [h|] eqn:Hh;
      [|unfold ProjectedField_fromDict, getitem in Hrun;
        rewrite Hm, Hn, Hv, Hh in Hrun; discriminate].
    destruct (ProjectedField_fromDict_tail dictionary m n v h self w
                Hm Hn Hv Hh) as (r & Htail & Hr).
    rewrite Htail in Hrun. injection Hrun as -> <- <-.
    destruct (proj1 Hr eq_refl) as (q & Hq & Hempty).
    exists m, n, v, h, q. repeat split; assumption.
  - intros (m & n & v & h & q & Hm & Hn & Hv & Hh & Hq & Hempty & -> & ->).
    destruct (ProjectedField_fromDict_tail dictionary m n v h self w
                Hm Hn Hv Hh) as (r & Htail & Hr).
    rewrite Htail. f_equal. f_equal. apply Hr. eauto.
Qed.

(** X6. Once the mapping has the keys model, name, vertices and hotSpot,
    [ProjectedField.fromDict] leaves the field with these four values and
    with no quality, whether it returns or raises: the qualities the field
    held before the call are gone. *)
Theorem ProjectedField_fromDict_drops_qualities
        (dictionary : dict) (m n v h : value)
        (self : ProjectedField) (w : World) :
  dict_get "model" dictionary = Some m ->
  dict_get "name" dictionary = Some n ->
  dict_get "vertices" dictionary = Some v ->
  dict_get "hotSpot" dictionary = Some h ->
  (ProjectedField_fromDict dictionary self w).1.2
  = mkProjectedField m n v h [].
Proof.
  intros Hm Hn Hv Hh.
  destruct (ProjectedField_fromDict_tail dictionary m n v h self w
              Hm Hn Hv Hh) as (r & Htail & _).
  rewrite Htail. reflexivity.
Qed.

(** X8. [Survey.fromDict] returns exactly on a mapping that has the six
    keys with nothing to iterate over under projectedFields; the survey
    then holds the five values and no projected field.  On every other
    mapping, so on the dictionary of a survey with a field, it raises. *)
Theorem Survey_fromDict_returns
        (dictionary : dict) (self self' : Survey) (w w' : World) :
  Survey_fromDict dictionary self w = (Returns tt, self', w') <->
  exists p c d st e fs,
    dict_get "participant" dictionary = Some p /\
    dict_get "config" dictionary = Some c /\
    dict_get "date" dictionary = Some d /\
    dict_get "startTime" dictionary = Some st /\
    dict_get "endTime" dictionary = Some e /\
    dict_get "projectedFields" dictionary = Some fs /\
    (fs = VList [] \/ fs = VDict [] \/ fs = VStr "") /\
    self' = mkSurvey p c d st e [] /\ w' = w.
Proof.
  split.
  - intros Hrun.
    destruct (dict_get "participant" dictionary) as [p|] eqn:Hp;
      [|unfold Survey_fromDict, getitem in Hrun;
        rewrite Hp in Hrun; discriminate].
    destruct (dict_get "config" dictionary) as [c|] eqn:Hc;
      [|unfold Survey_fromDict, getitem in Hrun;
        rewrite Hp, Hc in Hrun; discriminate].
    destruct (dict_get "date" dictionary) as [d|] eqn:Hd;
      [|unfold Survey_fromDict, getitem in Hrun;
        rewrite Hp, Hc, Hd in Hrun; discriminate].
    destruct (dict_get "startTime" dictionary) as [st|] eqn:Hst;
      [|unfold Survey_fromDict, getitem in Hrun;
        rewrite Hp, Hc, Hd, Hst in Hrun; discriminate].
    destruct (dict_get "endTime" dictionary) as [e|] eqn:He;
      [|unfold Survey_fromDict, getitem in Hrun;
        rewrite Hp, Hc, Hd, Hst, He in Hrun; discriminate].
    destruct (Survey_fromDict_tail dictionary p c d st e self w
                Hp Hc Hd Hst He) as (r & Htail & Hr).
    rewrite Htail in Hrun. injection Hrun as -> <- <-.
    destruct (proj1 Hr eq_refl) as (fs & Hfs & Hempty).
    exists p, c, d, st, e, fs. repeat split; assumption.
  - intros (p & c & d & st & e & fs & Hp & Hc & Hd & Hst & He & Hfs
            & Hempty & -> & ->).
    destruct (Survey_fromDict_tail dictionary p c d st e self w
                Hp Hc Hd Hst He) as (r & Htail & Hr).
    rewrite Htail. f_equal. f_equal. apply Hr. eauto.
Qed.

(** X13. Once the mapping has the keys participant, config, date,
    startTime and endTime, [Survey.fromDict] leaves the survey with these
    five values and with no projected field, whether it returns or raises:
    the projected fields the survey held before the call are gone. *)
Theorem Survey_fromDict_drops_fields
        (dictionary : dict) (p c d st e : value) (self : Survey) (w : World) :
  dict_get "participant" dictionary = Some p ->
  dict_get "config" dictionary = Some c ->
  dict_get "date" dictionary = Some d ->
  dict_get "startTime" dictionary = Some st ->
  dict_get "endTime" dictionary = Some e ->
  (Survey_fromDict dictionary self w).1.2 = mkSurvey p c d st e [].
Proof.
  intros Hp Hc Hd Hst He.
  destruct (Survey_fromDict_tail dictionary p c d st e self w
              Hp Hc Hd Hst He) as (r & Htail & _).
  rewrite Htail. reflexivity.
Qed.

(** X9. The three [fromDict] methods touch nothing but the object they
    fill: whether they return or raise, nothing is printed and no file is
    written. *)
Theorem fromDict_leaves_world (dictionary : dict) (w : World) :
  (forall self : Quality, (Quality_fromDict dictionary self w).2 = w) /\
  (forall self : ProjectedField,
     (ProjectedField_fromDict dictionary self w).2 = w) /\
  (forall self : Survey, (Survey_fromDict dictionary self w).2 = w).
Proof.
  split; [|split]; intros self.
  - unfold Quality_fromDict, getitem, bind.
    repeat match goal with
           | |- context [dict_get ?k dictionary] =>
               destruct (dict_get k dictionary); cbn; try reflexivity
           end.
  - destruct (dict_get "model" dictionary) as [m|] eqn:Hm;
      [|unfold ProjectedField_fromDict, getitem; rewrite Hm; reflexivity].
    destruct (dict_get "name" dictionary) as [n|] eqn:Hn;
      [|unfold ProjectedField_fromDict, getitem; rewrite Hm, Hn; reflexivity].
    destruct (dict_get "vertices" dictionary) as [v|] eqn:Hv;
      [|unfold ProjectedField_fromDict, getitem; rewrite Hm, Hn, Hv;
        reflexivity].
    destruct (dict_get "hotSpot" dictionary) as [h|] eqn:Hh;
      [|unfold ProjectedField_fromDict, getitem; rewrite Hm, Hn, Hv, Hh;
        reflexivity].
    destruct (ProjectedField_fromDict_tail dictionary m n v h self w
                Hm Hn Hv Hh) as (r & Htail & _).
    rewrite Htail. reflexivity.
  - destruct (dict_get "participant" dictionary) as [p|] eqn:Hp;
      [|unfold Survey_fromDict, getitem; rewrite Hp; reflexivity].
    destruct (dict_get "config" dictionary) as [c|] eqn:Hc;
      [|unfold Survey_fromDict, getitem; rewrite Hp, Hc; reflexivity].
    destruct (dict_get "date" dictionary) as [d|] eqn:Hd;
      [|unfold Survey_fromDict, getitem; rewrite Hp, Hc, Hd; reflexivity].
    destruct (dict_get "startTime" dictionary) as [st|] eqn:Hst;
      [|unfold Survey_fromDict, getitem; rewrite Hp, Hc, Hd, Hst;
        reflexivity].
    destruct (dict_get "endTime" dictionary) as [e|] eqn:He;
      [|unfold Survey_fromDict, getitem; rewrite Hp, Hc, Hd, Hst, He;
        reflexivity].
    destruct (Survey_fromDict_tail dictionary p c d st e self w
                Hp Hc Hd Hst He) as (r & Htail & _).
    rewrite Htail. reflexivity.
Qed.

(** X10. The two clock methods of a survey overwrite: of two calls of
    [startDateTimeNow], or of [endTimeNow], only the later one shows, and
    each leaves the participant, the configuration, the projected fields
    and the fields of the other method as they were. *)
Theorem Survey_clock_methods_overwrite (s : Survey) (w1 w2 : World) :
  Survey_startDateTimeNow (Survey_startDateTimeNow s w1).1.2 w2
  = Survey_startDateTimeNow s w2 /\
  Survey_endTimeNow (Survey_endTimeNow s w1).1.2 w2 = Survey_endTimeNow s w2 /\
  Survey_startDateTimeNow s w1
  = (Returns tt,
     mkSurvey (participant s) (config s) (VStr (strftime_Ymd (clock w1)))
              (VStr (strftime_HMS (clock w1))) (endTime s)
              (projectedFields s),
     w1) /\
  Survey_endTimeNow s w1
  = (Returns tt,
     mkSurvey (participant s) (config s) (date s) (startTime s)
              (VStr (strftime_HMS (clock w1))) (projectedFields s),
     w1).
Proof. destruct s. repeat split. Qed.

(** ** More on saving and on the manager *)

Section Sessions.

Variable py_repr : value -> string.

(** When [Survey.saveSurvey] returns [True], the survey has projected
    fields and the file could be opened. *)
Lemma Survey_save_returned_true (path : string) (s : Survey) (w : World) :
  (Survey_saveSurvey py_repr path s w).1.1 = Returns true ->
  projectedFields s <> [] /\
  open_error w (os_path_join path (Survey_filename py_repr s)) = None.
Proof.
  intros Hrun.
  destruct (fields_or_none (projectedFields s)) as [Hfs | Hfs].
  - rewrite (Survey_save_empty py_repr path s w Hfs) in Hrun. discriminate.
  - split; [exact Hfs|].
    destruct (open_error w (os_path_join path (Survey_filename py_repr s)))
      as [kind|] eqn:Hopen; [|reflexivity].
    rewrite (Survey_save_refused py_repr path kind s w Hfs Hopen) in Hrun.
    discriminate.
Qed.

(** X11. [Survey.saveSurvey] does not look for an existing file: after two
    saves to the same directory that both returned [True], of surveys
    with the same file name, only the second one's document is left, and
    no other file is touched. *)
Theorem Survey_saveSurvey_overwrites
        (path : string) (s1 s2 : Survey) (w : World) :
  (Survey_saveSurvey py_repr path s1 w).1.1 = Returns true ->
  (Survey_saveSurvey py_repr path s2
     (Survey_saveSurvey py_repr path s1 w).2).1.1 = Returns true ->
  Survey_filename py_repr s1 = Survey_filename py_repr s2 ->
  files (Survey_saveSurvey py_repr path s2
           (Survey_saveSurvey py_repr path s1 w).2).2
  = <[os_path_join path (Survey_filename py_repr s2) :=
        JsonText 4 (VDict (Survey_toDict s2))]> (files w).
Proof.
  intros Hfirst Hsecond Hname.
  destruct (Survey_save_returned_true path s1 w Hfirst) as [Hfs1 Hopen1].
  destruct (Survey_save_returned_true path s2 _ Hsecond) as [Hfs2 Hopen2].
  revert Hopen2.
  rewrite (Survey_save_written py_repr path s1 w Hfs1 Hopen1).
  intros Hopen2.
  rewrite (Survey_save_written py_repr path s2 _ Hfs2 Hopen2).
  cbn. rewrite Hname. apply insert_insert_eq.
Qed.

(** X12. No document that [Survey.saveSurvey] writes can be given back to
    [Survey.fromDict]: whenever the save returns [True], the file holds the
    survey's dictionary, and [fromDict] raises [TypeError] on it for every
    receiver. *)
Theorem saved_document_not_read_back
        (path : string) (s s' : Survey) (w w' : World) :
  Survey_saveSurvey py_repr path s w = (Returns true, s', w') ->
  exists document,
    files w' !! os_path_join path (Survey_filename py_repr s)
    = Some (JsonText 4 (VDict document)) /\
    forall (self : Survey) (w0 : World),
      Survey_fromDict document self w0
      = (Raises (TypeError
           "ProjectedField.fromDict() missing 1 required positional argument: 'dictionary'"),
         set_projectedFields [] s, w0).
Proof.
  intros Hrun.
  destruct (Survey_save_returned_true path s w) as [Hfs Hopen];
    [rewrite Hrun; reflexivity|].
  rewrite (Survey_save_written py_repr path s w Hfs Hopen) in Hrun.
  injection Hrun as <- <-.
  exists (Survey_toDict s). split.
  - cbn. apply lookup_insert_eq.
  - intros self w0. destruct s as [p c d st e fs]. cbn in Hfs.
    destruct fs as [|f fs]; [congruence|]. reflexivity.
Qed.

(** [newSurvey] on a manager without a survey for an unknown participant,
    and on a manager with a survey. *)
Lemma newSurvey_refused (m : SurveyManager) (p : string) (w : World) :
  survey m = None ->
  dict_get p (mgr_config m) = None ->
  SurveyManager_newSurvey p m w = (Returns VNone, m, with_line msg_unknown w).
Proof.
  intros Hidle Habsent.
  unfold SurveyManager_newSurvey, bind, get_self, dict_contains.
  rewrite Hidle. cbn. rewrite Habsent. reflexivity.
Qed.

Lemma newSurvey_ongoing (m : SurveyManager) (s : Survey) (p : string)
      (w : World) :
  survey m = Some s ->
  SurveyManager_newSurvey p m w
  = (Returns (VBool false), m, with_line msg_ongoing w).
Proof.
  intros Hactive. unfold SurveyManager_newSurvey, bind, get_self.
  rewrite Hactive. reflexivity.
Qed.

(** X14. [newSurvey] never raises, and its value tells what happened:
    [True] exactly on a manager without a survey for a participant of the
    configuration, [False] exactly on a manager with a survey, [None]
    exactly on a manager without a survey for an unknown participant.
    The manager is without a survey afterwards exactly when the value is
    [None]; on [True] its survey is the new one, with the participant,
    the participant's configuration entry, the date and start time of the
    clock, no end time and no projected field, and nothing was printed.
    No file is written in any case. *)
Theorem SurveyManager_newSurvey_returns
        (p : string) (m : SurveyManager) (w : World) :
  exists r m' w',
    SurveyManager_newSurvey p m w = (Returns r, m', w') /\
    (r = VBool true <->
     survey m = None /\ dict_contains p (mgr_config m) = true) /\
    (r = VBool false <-> survey m <> None) /\
    (r = VNone <->
     survey m = None /\ dict_contains p (mgr_config m) = false) /\
    (survey m' = None <-> r = VNone) /\
    (r = VBool true ->
     exists entry,
       dict_get p (mgr_config m) = Some entry /\
       survey m'
       = Some (mkSurvey (VStr p) entry (VStr (strftime_Ymd (clock w)))
                        (VStr (strftime_HMS (clock w))) (VStr "") []) /\
       w' = w) /\
    files w' = files w.
Proof.
  destruct (survey m) as [s|] eqn:Hs.
  - do 3 eexists. split; [apply (newSurvey_ongoing m s p w Hs)|].
    rewrite Hs. repeat split; try discriminate; try congruence.
    + intros [H _]; discriminate.
    + intros [H _]; discriminate.
  - destruct (dict_get p (mgr_config m)) as [entry|] eqn:Hentry.
    + do 3 eexists. split; [apply (SurveyManager_newSurvey_known m p entry w Hs Hentry)|].
      unfold dict_contains. rewrite Hentry. cbn.
      repeat split; try discriminate; try congruence.
      * intros [_ H]; discriminate.
      * intros _. exists entry. repeat split.
    + do 3 eexists. split; [apply (newSurvey_refused m p w Hs Hentry)|].
      unfold dict_contains. rewrite Hentry, Hs.
      repeat split; try discriminate; try congruence.
      intros [_ H]; discriminate.
Qed.

(** X15. Neither [newSurvey] nor [saveSurvey] changes the manager's
    configuration or its data path, whether the call returns or raises. *)
Theorem SurveyManager_keeps_configuration
        (p : string) (m : SurveyManager) (w : World) :
  mgr_config (SurveyManager_newSurvey p m w).1.2 = mgr_config m /\
  data_path (SurveyManager_newSurvey p m w).1.2 = data_path m /\
  mgr_config (SurveyManager_saveSurvey py_repr m w).1.2 = mgr_config m /\
  data_path (SurveyManager_saveSurvey py_repr m w).1.2 = data_path m.
Proof.
  destruct (survey m) as [s|] eqn:Hs.
  - rewrite (newSurvey_ongoing m s p w Hs).
    destruct (projectedFields s) as [|f fs] eqn:Hfs.
    + rewrite (saveSurvey_without_fields py_repr m s w Hs Hfs).
      repeat split.
    + assert (Hsome : projectedFields s <> []) by (rewrite Hfs; discriminate).
      destruct (open_error w
                  (os_path_join (data_path m) (Survey_filename py_repr s)))
        as [kind|] eqn:Hopen.
      * rewrite (saveSurvey_not_opened py_repr m s w kind Hs Hsome Hopen).
        repeat split.
      * rewrite (saveSurvey_with_fields py_repr m s w Hs Hsome Hopen).
        repeat split.
  - rewrite (saveSurvey_without_survey py_repr m w Hs).
    destruct (dict_get p (mgr_config m)) as [entry|] eqn:Hentry.
    + rewrite (SurveyManager_newSurvey_known m p entry w Hs Hentry). repeat split.
    + rewrite (newSurvey_refused m p w Hs Hentry). repeat split.
Qed.

(** X16. [saveSurvey] writes a file only when it returns [True]: when it
    returns [False], and when it raises, be it for want of a survey or
    because the file cannot be opened, every file is as it was. *)
Theorem SurveyManager_saveSurvey_writes_on_success
        (m m' : SurveyManager) (w w' : World) (r : outcome bool) :
  SurveyManager_saveSurvey py_repr m w = (r, m', w') ->
  r <> Returns true ->
  files w' = files w.
Proof.
  intros Hrun Hr.
  destruct (survey m) as [s|] eqn:Hs.
  - destruct (projectedFields s) as [|f fs] eqn:Hfs.
    + rewrite (saveSurvey_without_fields py_repr m s w Hs Hfs) in Hrun.
      injection Hrun as _ _ <-. reflexivity.
    + assert (Hsome : projectedFields s <> []) by (rewrite Hfs; discriminate).
      destruct (open_error w
                  (os_path_join (data_path m) (Survey_filename py_repr s)))
        as [kind|] eqn:Hopen.
      * rewrite (saveSurvey_not_opened py_repr m s w kind Hs Hsome Hopen)
          in Hrun.
        injection Hrun as _ _ <-. reflexivity.
      * rewrite (saveSurvey_with_fields py_repr m s w Hs Hsome Hopen) in Hrun.
        injection Hrun as <- _ _. contradiction.
  - rewrite (saveSurvey_without_survey py_repr m w Hs) in Hrun.
    injection Hrun as _ _ <-. reflexivity.
Qed.

(** X17. A survey that [newSurvey] has just started cannot be saved: as
    long as no projected field is put in, [saveSurvey] returns [False],
    writes nothing, and the manager keeps the survey, with the end time of
    the attempt. *)
Theorem started_survey_not_saved
        (p : string) (m m1 : SurveyManager) (w1 w1' w2 : World) :
  SurveyManager_newSurvey p m w1 = (Returns (VBool true), m1, w1') ->
  exists s1,
    survey m1 = Some s1 /\
    SurveyManager_saveSurvey py_repr m1 w2
    = (Returns false,
       set_survey (Some (set_endTime (VStr (strftime_HMS (clock w2))) s1)) m1,
       with_line msg_no_fields w2).
Proof.
  intros Hnew.
  destruct (survey m) as [s|] eqn:Hs.
  { rewrite (newSurvey_ongoing m s p w1 Hs) in Hnew. discriminate. }
  destruct (dict_get p (mgr_config m)) as [entry|] eqn:Hentry.
  - rewrite (SurveyManager_newSurvey_known m p entry w1 Hs Hentry) in Hnew.
    injection Hnew as <- <-. eexists. split; [reflexivity|].
    apply saveSurvey_without_fields; reflexivity.
  - rewrite (newSurvey_refused m p w1 Hs Hentry) in Hnew. discriminate.
Qed.

(** X18. After a [saveSurvey] that returned [True] the manager has no
    survey: a second [saveSurvey] raises [AttributeError] and changes
    nothing, and [newSurvey] for a participant of the configuration
    starts the next survey. *)
Theorem after_saved_survey (m m' : SurveyManager) (w w' : World) :
  SurveyManager_saveSurvey py_repr m w = (Returns true, m', w') ->
  survey m' = None /\
  (forall w2,
     SurveyManager_saveSurvey py_repr m' w2
     = (Raises (AttributeError
          "'NoneType' object has no attribute 'endTimeNow'"), m', w2)) /\
  (forall p w2,
     dict_contains p (mgr_config m) = true ->
     exists m2, SurveyManager_newSurvey p m' w2 = (Returns (VBool true), m2, w2)).
Proof.
  intros Hrun.
  assert (Hm' : m' = set_survey None m).
  { destruct (survey m) as [s|] eqn:Hs.
    - destruct (projectedFields s) as [|f fs] eqn:Hfs.
      + rewrite (saveSurvey_without_fields py_repr m s w Hs Hfs) in Hrun.
        discriminate.
      + assert (Hsome : projectedFields s <> [])
          by (rewrite Hfs; discriminate).
        destruct (open_error w
                    (os_path_join (data_path m) (Survey_filename py_repr s)))
          as [kind|] eqn:Hopen.
        * rewrite (saveSurvey_not_opened py_repr m s w kind Hs Hsome Hopen)
            in Hrun.
          discriminate.
        * rewrite (saveSurvey_with_fields py_repr m s w Hs Hsome Hopen)
            in Hrun.
          injection Hrun as <- _. reflexivity.
    - rewrite (saveSurvey_without_survey py_repr m w Hs) in Hrun.
      discriminate. }
  subst m'. split; [reflexivity|]. split.
  - intros w2. apply saveSurvey_without_survey. reflexivity.
  - intros p w2 Hin. apply dict_contains_get in Hin. destruct Hin as [entry Hentry].
    eexists. apply (SurveyManager_newSurvey_known (set_survey None m) p entry w2);
      [reflexivity | exact Hentry].
Qed.

(** X19. A whole session.  On a manager without a survey, [newSurvey] for
    a participant of the configuration, projected fields put into the
    started survey, and [saveSurvey] at a time when the file can be
    opened: the file is named after the participant and the clock at the
    start, its document holds the participant's configuration entry, the
    fields, and the clock of the save as end time, and the manager is
    again as it was before the session.  [repr] is not consulted. *)
Theorem session_saves_started_survey
        (m : SurveyManager) (p : string) (entry : value)
        (fs : list ProjectedField) (w1 w2 : World) :
  survey m = None ->
  dict_get p (mgr_config m) = Some entry ->
  fs <> [] ->
  open_error w2
    (os_path_join (data_path m)
       (p +:+ "_" +:+ strftime_Ymd (clock w1) +:+ "_"
          +:+ strftime_HMS (clock w1) +:+ ".json")) = None ->
  let filename :=
    p +:+ "_" +:+ strftime_Ymd (clock w1) +:+ "_"
      +:+ strftime_HMS (clock w1) +:+ ".json" in
  let started :=
    mkSurvey (VStr p) entry (VStr (strftime_Ymd (clock w1)))
             (VStr (strftime_HMS (clock w1))) (VStr "") [] in
  let filled :=
    mkSurvey (VStr p) entry (VStr (strftime_Ymd (clock w1)))
             (VStr (strftime_HMS (clock w1))) (VStr "") fs in
  let saved :=
    mkSurvey (VStr p) entry (VStr (strftime_Ymd (clock w1)))
             (VStr (strftime_HMS (clock w1)))
             (VStr (strftime_HMS (clock w2))) fs in
  SurveyManager_newSurvey p m w1
  = (Returns (VBool true),
     mkSurveyManager (Some started) (mgr_config m) (data_path m), w1) /\
  SurveyManager_saveSurvey py_repr
    (mkSurveyManager (Some filled) (mgr_config m) (data_path m)) w2
  = (Returns true, m,
     with_file (os_path_join (data_path m) filename)
       (JsonText 4 (VDict (Survey_toDict saved)))
       (with_line (msg_saving filename) w2)) /\
  dict_get "endTime" (Survey_toDict saved)
  = Some (VStr (strftime_HMS (clock w2))).
Proof.
  intros Hidle Hentry Hfs Hopen. cbv zeta. split; [|split; [|reflexivity]].
  - apply (SurveyManager_newSurvey_known m p entry w1 Hidle Hentry).
  - erewrite saveSurvey_with_fields;
      [|reflexivity | exact Hfs | exact Hopen].
    destruct m as [sv cfg dp]. cbn in Hidle. subst sv. reflexivity.
Qed.

(** X20. A failed save can be tried again: when [saveSurvey] has returned
    [False] on a survey without projected fields, the manager keeps the
    survey with the end time of that call; when fields are then put into
    it and the file can be opened, the next [saveSurvey] returns [True]
    and writes the survey with the end time of this second call. *)
Theorem save_again_after_failure
        (m : SurveyManager) (s : Survey) (fs : list ProjectedField)
        (w1 w2 : World) :
  survey m = Some s ->
  projectedFields s = [] ->
  fs <> [] ->
  open_error w2 (os_path_join (data_path m) (Survey_filename py_repr s))
  = None ->
  let kept :=
    mkSurvey (participant s) (config s) (date s) (startTime s)
             (VStr (strftime_HMS (clock w1))) [] in
  let filled :=
    mkSurvey (participant s) (config s) (date s) (startTime s)
             (VStr (strftime_HMS (clock w1))) fs in
  let saved :=
    mkSurvey (participant s) (config s) (date s) (startTime s)
             (VStr (strftime_HMS (clock w2))) fs in
  SurveyManager_saveSurvey py_repr m w1
  = (Returns false,
     mkSurveyManager (Some kept) (mgr_config m) (data_path m),
     with_line msg_no_fields w1) /\
  SurveyManager_saveSurvey py_repr
    (mkSurveyManager (Some filled) (mgr_config m) (data_path m)) w2
  = (Returns true, mkSurveyManager None (mgr_config m) (data_path m),
     with_file (os_path_join (data_path m) (Survey_filename py_repr s))
       (JsonText 4 (VDict (Survey_toDict saved)))
       (with_line (msg_saving (Survey_filename py_repr s)) w2)) /\
  dict_get "endTime" (Survey_toDict saved)
  = Some (VStr (strftime_HMS (clock w2))).
Proof.
  intros Hactive Hnone Hfs Hopen. cbv zeta. split; [|split; [|reflexivity]].
  - rewrite (saveSurvey_without_fields py_repr m s w1 Hactive Hnone).
    destruct s as [p c d st e f0]. cbn in Hnone. subst f0. reflexivity.
  - erewrite saveSurvey_with_fields;
      [|reflexivity | exact Hfs | exact Hopen].
    reflexivity.
Qed.

(** Strings that start alike or with parts of one length. *)
Lemma append_same_prefix (a b c : string) : a +:+ b = a +:+ c -> b = c.
Proof.
  induction a as [|x a IH]; cbn; [auto|].
  intros H. injection H as H. auto.
Qed.

Lemma append_same_length (a a' b b' : string) :
  String.length a = String.length a' ->
  a +:+ b = a' +:+ b' -> a = a' /\ b = b'.
Proof.
  revert a'. induction a as [|x a IH]; intros [|x' a']; cbn;
    try discriminate.
  - auto.
  - intros Hlen H. injection Hlen as Hlen. injection H as -> H.
    destruct (IH a' Hlen H) as [-> ->]. auto.
Qed.

Lemma append_assoc (a b c : string) : (a +:+ b) +:+ c = a +:+ (b +:+ c).
Proof.
  induction a as [|x a IH]; [reflexivity|].
  change (String x ((a +:+ b) +:+ c) = String x (a +:+ b +:+ c)).
  rewrite IH. reflexivity.
Qed.

(** A padded number is made of digits, and the number can be read back
    from it. *)
Lemma all_digits_append (a b : string) :
  all_digits (a +:+ b) = all_digits a && all_digits b.
Proof.
  induction a as [|x a IH]; [reflexivity|].
  change (is_digit x && all_digits (a +:+ b)
          = is_digit x && all_digits a && all_digits b).
  rewrite IH. apply andb_assoc.
Qed.

Lemma all_digits_uint (d : Decimal.uint) :
  all_digits (NilEmpty.string_of_uint d) = true.
Proof. induction d; cbn; auto. Qed.

Lemma all_digits_zfill (width n : nat) : all_digits (zfill width n) = true.
Proof.
  unfold zfill, decimal. rewrite all_digits_append.
  apply andb_true_iff. split.
  - induction (width - _)%nat as [|k IH]; cbn; auto.
  - destruct (Nat.to_uint n); try apply all_digits_uint. reflexivity.
Qed.

Lemma decimal_read_back (d : Decimal.uint) :
  option_map Nat.of_uint (NilEmpty.uint_of_string (NilZero.string_of_uint d))
  = Some (Nat.of_uint d).
Proof.
  destruct d; [reflexivity | ..];
    unfold NilZero.string_of_uint; rewrite NilEmpty.usu; reflexivity.
Qed.

Lemma zfill_read_back (width n : nat) :
  option_map Nat.of_uint (NilEmpty.uint_of_string (zfill width n)) = Some n.
Proof.
  unfold zfill. induction (width - _)%nat as [|k IH].
  - change (zeros 0 +:+ decimal n) with (decimal n). unfold decimal.
    rewrite decimal_read_back, Unsigned.of_to. reflexivity.
  - change (zeros (S k) +:+ decimal n)
      with (String "0" (zeros k +:+ decimal n)).
    cbn [NilEmpty.uint_of_string].
    destruct (NilEmpty.uint_of_string (zeros k +:+ decimal n)) as [d|];
      [|discriminate].
    cbn in IH |- *. exact IH.
Qed.

Lemma zfill_distinct (width n m : nat) : zfill width n = zfill width m -> n = m.
Proof.
  intros Heq. pose proof (zfill_read_back width n) as Hn.
  rewrite Heq, zfill_read_back in Hn. congruence.
Qed.

(** Two strings of digits, each followed by a character that is no digit,
    end at the same place. *)
Lemma split_after_digits (a a' b b' : string) (c c' : ascii) :
  all_digits a = true -> all_digits a' = true ->
  is_digit c = false -> is_digit c' = false ->
  a +:+ String c b = a' +:+ String c' b' ->
  a = a' /\ b = b'.
Proof.
  intros Ha Ha' Hc Hc'. revert a' Ha'.
  induction a as [|x a IH]; intros [|x' a'] Ha' Heq; cbn in *.
  - injection Heq as _ ->. auto.
  - injection Heq as -> _. apply andb_true_iff in Ha'. destruct Ha'. congruence.
  - injection Heq as -> _. apply andb_true_iff in Ha. destruct Ha. congruence.
  - injection Heq as -> Heq.
    apply andb_true_iff in Ha. apply andb_true_iff in Ha'.
    destruct (IH (proj2 Ha) a' (proj2 Ha') Heq) as [-> ->]. auto.
Qed.

Lemma append_character (c : ascii) (b : string) :
  String c EmptyString +:+ b = String c b.
Proof. reflexivity. Qed.

(** The date and the time of two clock readings, written one after the
    other as in the file name, agree only for the same reading. *)
Lemma stamp_distinct (t1 t2 : datetime) :
  strftime_Ymd t1 +:+ "_" +:+ strftime_HMS t1 +:+ ".json"
  = strftime_Ymd t2 +:+ "_" +:+ strftime_HMS t2 +:+ ".json" ->
  t1 = t2.
Proof.
  destruct t1 as [y1 mo1 d1 h1 mi1 s1]. destruct t2 as [y2 mo2 d2 h2 mi2 s2].
  unfold strftime_Ymd, strftime_HMS.
  cbn [year month day hour minute second].
  rewrite !append_assoc, !append_character. intros Hsame.
  repeat match goal with
         | Heq : zfill ?k ?n +:+ String ?c ?b = zfill ?k ?m +:+ String ?c' ?b'
           |- _ =>
             let E := fresh "E" in
             let R := fresh "R" in
             destruct (split_after_digits (zfill k n) (zfill k m) b b' c c'
                         (all_digits_zfill k n) (all_digits_zfill k m)
                         eq_refl eq_refl Heq) as [E R];
             clear Heq; apply zfill_distinct in E; subst
         end.
  reflexivity.
Qed.

(** X21. Two surveys that [newSurvey] started for the same participant
    get the same file name only when they were started at the same clock
    reading, to the second: surveys of one participant started at different
    seconds are saved to different files. *)
Theorem started_surveys_same_file
        (p : string) (m1 m2 m1' m2' : SurveyManager) (s1 s2 : Survey)
        (w1 w2 w1' w2' : World) :
  SurveyManager_newSurvey p m1 w1 = (Returns (VBool true), m1', w1') ->
  SurveyManager_newSurvey p m2 w2 = (Returns (VBool true), m2', w2') ->
  survey m1' = Some s1 ->
  survey m2' = Some s2 ->
  Survey_filename py_repr s1 = Survey_filename py_repr s2 ->
  clock w1 = clock w2.
Proof.
  assert (Hstart : forall m m' s w w',
            SurveyManager_newSurvey p m w = (Returns (VBool true), m', w') ->
            survey m' = Some s ->
            Survey_filename py_repr s
            = p +:+ "_" +:+ strftime_Ymd (clock w) +:+ "_"
                +:+ strftime_HMS (clock w) +:+ ".json").
  { intros m m' s w w' Hnew Hs.
    destruct (survey m) as [s0|] eqn:Hs0.
    { rewrite (newSurvey_ongoing m s0 p w Hs0) in Hnew. discriminate. }
    destruct (dict_get p (mgr_config m)) as [entry|] eqn:Hentry.
    - rewrite (SurveyManager_newSurvey_known m p entry w Hs0 Hentry) in Hnew.
      injection Hnew as <- _. cbn in Hs. injection Hs as <-. reflexivity.
    - rewrite (newSurvey_refused m p w Hs0 Hentry) in Hnew. discriminate. }
  intros Hnew1 Hnew2 Hs1 Hs2 Hname.
  rewrite (Hstart _ _ _ _ _ Hnew1 Hs1), (Hstart _ _ _ _ _ Hnew2 Hs2) in Hname.
  apply append_same_prefix in Hname. cbn in Hname. injection Hname as Hname.
  exact (stamp_distinct _ _ Hname).
Qed.

End Sessions.

(** ** Further runs of the session *)

Lemma Quality_toDict_fromDict_run :
  Quality_fromDict sample_mapping sample_quality sample_world
  = (Returns tt,
     mkQuality (VInt 1) (VInt 2) (VInt 3) (VStr "skin") (VStr "dull"),
     sample_world) /\
  dict_keys (Quality_toDict
               (mkQuality (VInt 1) (VInt 2) (VInt 3) (VStr "skin") (VStr "dull")))
  = Quality_keys /\
  forall k, In k Quality_keys ->
            dict_get k (Quality_toDict
                          (mkQuality (VInt 1) (VInt 2) (VInt 3) (VStr "skin")
                                     (VStr "dull")))
            = dict_get k sample_mapping.
Proof.
  split; [reflexivity|].
  apply (Quality_toDict_fromDict sample_mapping sample_quality _
           sample_world sample_world).
  reflexivity.
Defined.

Lemma Quality_fromDict_first_missing_run :
  Quality_keys = (["intensity"; "naturalness"] ++ "pain" :: ["depth"; "type"])%list /\
  (forall k', In k' ["intensity"; "naturalness"] ->
              dict_contains k' short_mapping = true) /\
  dict_contains "pain" short_mapping = false /\
  exists self',
    Quality_fromDict short_mapping sample_quality sample_world
    = (Raises (KeyError "pain"), self', sample_world) /\
    (forall k', In k' ["intensity"; "naturalness"] ->
                dict_get k' (Quality_toDict self') = dict_get k' short_mapping) /\
    (forall k', In k' ["pain"; "depth"; "type"] ->
                dict_get k' (Quality_toDict self')
                = dict_get k' (Quality_toDict sample_quality)).
Proof.
  assert (Hbefore : forall k', In k' ["intensity"; "naturalness"] ->
                               dict_contains k' short_mapping = true).
  { intros k' [<- | [<- | []]]; reflexivity. }
  split; [reflexivity|]. split; [exact Hbefore|]. split; [reflexivity|].
  apply (Quality_fromDict_first_missing short_mapping sample_quality
           sample_world ["intensity"; "naturalness"] ["depth"; "type"] "pain"
           eq_refl Hbefore eq_refl).
Defined.

Lemma ProjectedField_fromDict_stops_at_Quality_run :
  ProjectedField_fromDict
    [ ("model", VStr "torso"); ("name", VStr "chest");
      ("vertices", VList [VInt 1]); ("hotSpot", VList [VInt 1]);
      ("qualities", VList [VDict (Quality_toDict sample_quality)]) ]
    sample_field sample_world
  = (Raises (TypeError
       "Quality.__init__() missing 5 required positional arguments: 'intensity', 'naturalness', 'pain', 'depth', and 'type'"),
     mkProjectedField (VStr "torso") (VStr "chest") (VList [VInt 1])
                      (VList [VInt 1]) [],
     sample_world).
Proof.
  apply (ProjectedField_fromDict_stops_at_Quality _ _ _ _ _
           (VDict (Quality_toDict sample_quality)) []); reflexivity.
Defined.

Lemma ProjectedField_fromDict_drops_qualities_run :
  qualities sample_field = [sample_quality] /\
  (ProjectedField_fromDict
     [ ("model", VStr "arm"); ("name", VStr "wrist");
       ("vertices", VList []); ("hotSpot", VList []) ]
     sample_field sample_world).1.2
  = mkProjectedField (VStr "arm") (VStr "wrist") (VList []) (VList []) [].
Proof.
  split; [reflexivity|].
  apply ProjectedField_fromDict_drops_qualities; reflexivity.
Defined.

Lemma Survey_roundtrip_without_fields_run :
  projectedFields started_survey = [] /\
  Survey_fromDict (Survey_toDict started_survey) filled_survey sample_world
  = (Returns tt, started_survey, sample_world).
Proof.
  split; [reflexivity|].
  apply Survey_roundtrip_without_fields. reflexivity.
Defined.

Lemma Survey_fromDict_drops_fields_run :
  projectedFields filled_survey = [sample_field] /\
  (Survey_fromDict (Survey_toDict filled_survey) filled_survey sample_world).1.2
  = started_survey.
Proof.
  split; [reflexivity|].
  apply (Survey_fromDict_drops_fields (Survey_toDict filled_survey)
           (VStr "p1") (VDict [("arm", VStr "left")]) (VStr "2024-05-17")
           (VStr "09-30-05") (VStr "") filled_survey sample_world);
    reflexivity.
Defined.

Lemma Survey_saveSurvey_overwrites_run :
  (Survey_saveSurvey repr_unused "data" filled_survey sample_world).1.1
  = Returns true /\
  (Survey_saveSurvey repr_unused "data"
     (set_endTime (VStr "09-45-10") filled_survey)
     (Survey_saveSurvey repr_unused "data" filled_survey sample_world).2).1.1
  = Returns true /\
  Survey_filename repr_unused filled_survey
  = Survey_filename repr_unused (set_endTime (VStr "09-45-10") filled_survey) /\
  files (Survey_saveSurvey repr_unused "data"
           (set_endTime (VStr "09-45-10") filled_survey)
           (Survey_saveSurvey repr_unused "data" filled_survey
              sample_world).2).2
  = <["data/p1_2024-05-17_09-30-05.json" :=
        JsonText 4
          (VDict (Survey_toDict (set_endTime (VStr "09-45-10") filled_survey)))]>
      ∅.
Proof.
  split; [reflexivity|]. split; [reflexivity|]. split; [reflexivity|].
  apply (Survey_saveSurvey_overwrites repr_unused "data" filled_survey
           (set_endTime (VStr "09-45-10") filled_survey) sample_world);
    reflexivity.
Defined.

Lemma saved_document_not_read_back_run :
  (Survey_saveSurvey repr_unused "data" filled_survey sample_world).1
  = (Returns true, filled_survey) /\
  exists document,
    files (Survey_saveSurvey repr_unused "data" filled_survey sample_world).2
      !! "data/p1_2024-05-17_09-30-05.json"
    = Some (JsonText 4 (VDict document)) /\
    forall (self : Survey) (w0 : World),
      Survey_fromDict document self w0
      = (Raises (TypeError
           "ProjectedField.fromDict() missing 1 required positional argument: 'dictionary'"),
         started_survey, w0).
Proof.
  split; [reflexivity|].
  apply (saved_document_not_read_back repr_unused "data" filled_survey
           filled_survey sample_world
           (Survey_saveSurvey repr_unused "data" filled_survey sample_world).2).
  reflexivity.
Defined.

(** [saveSurvey] that returns [False], in the directory "data", and
    [saveSurvey] that raises because the directory "nodir" does not
    exist: no file is written in either. *)
Lemma SurveyManager_saveSurvey_writes_on_success_run :
  SurveyManager_saveSurvey repr_unused started_manager later_world
  = (Returns false,
     set_survey (Some (set_endTime (VStr "09-45-10") started_survey))
                started_manager,
     with_line msg_no_fields later_world) /\
  files (with_line msg_no_fields later_world) = files later_world /\
  SurveyManager_saveSurvey repr_unused lost_manager later_world
  = (Raises (OSError "FileNotFoundError"
               "nodir/p1_2024-05-17_09-30-05.json"),
     set_survey (Some (set_endTime (VStr "09-45-10") filled_survey))
                lost_manager,
     with_line "Saving survey to p1_2024-05-17_09-30-05.json..." later_world) /\
  files (with_line "Saving survey to p1_2024-05-17_09-30-05.json..."
                   later_world)
  = files later_world.
Proof.
  split; [reflexivity|]. split.
  { apply (SurveyManager_saveSurvey_writes_on_success repr_unused
             started_manager
             (set_survey (Some (set_endTime (VStr "09-45-10") started_survey))
                         started_manager)
             later_world (with_line msg_no_fields later_world) (Returns false));
      [reflexivity | discriminate]. }
  split; [reflexivity|].
  apply (SurveyManager_saveSurvey_writes_on_success repr_unused
           lost_manager
           (set_survey (Some (set_endTime (VStr "09-45-10") filled_survey))
                       lost_manager)
           later_world
           (with_line "Saving survey to p1_2024-05-17_09-30-05.json..."
                      later_world)
           (Raises (OSError "FileNotFoundError"
                      "nodir/p1_2024-05-17_09-30-05.json")));
    [reflexivity | discriminate].
Defined.

Lemma started_survey_not_saved_run :
  SurveyManager_newSurvey "p1" idle_manager sample_world
  = (Returns (VBool true), started_manager, sample_world) /\
  exists s1,
    survey started_manager = Some s1 /\
    SurveyManager_saveSurvey repr_unused started_manager later_world
    = (Returns false,
       set_survey (Some (set_endTime (VStr (strftime_HMS (clock later_world)))
                                     s1))
                  started_manager,
       with_line msg_no_fields later_world).
Proof.
  split; [reflexivity|].
  apply (started_survey_not_saved repr_unused "p1" idle_manager
           started_manager sample_world sample_world later_world).
  reflexivity.
Defined.

Lemma after_saved_survey_run :
  (SurveyManager_saveSurvey repr_unused filled_manager later_world).1
  = (Returns true, idle_manager) /\
  survey idle_manager = None /\
  (forall w2,
     SurveyManager_saveSurvey repr_unused idle_manager w2
     = (Raises (AttributeError
          "'NoneType' object has no attribute 'endTimeNow'"),
        idle_manager, w2)) /\
  (forall p w2,
     dict_contains p (mgr_config filled_manager) = true ->
     exists m2,
       SurveyManager_newSurvey p idle_manager w2
       = (Returns (VBool true), m2, w2)).
Proof.
  split; [reflexivity|].
  apply (after_saved_survey repr_unused filled_manager idle_manager
           later_world
           (SurveyManager_saveSurvey repr_unused filled_manager later_world).2).
  reflexivity.
Defined.

Lemma session_saves_started_survey_run :
  survey idle_manager = None /\
  dict_get "p1" (mgr_config idle_manager) = Some (VDict [("arm", VStr "left")]) /\
  open_error later_world "data/p1_2024-05-17_09-30-05.json" = None /\
  SurveyManager_newSurvey "p1" idle_manager sample_world
  = (Returns (VBool true), started_manager, sample_world) /\
  SurveyManager_saveSurvey repr_unused filled_manager later_world
  = (Returns true, idle_manager,
     with_file "data/p1_2024-05-17_09-30-05.json"
       (JsonText 4
          (VDict (Survey_toDict
                    (mkSurvey (VStr "p1") (VDict [("arm", VStr "left")])
                              (VStr "2024-05-17") (VStr "09-30-05")
                              (VStr "09-45-10") [sample_field]))))
       (with_line "Saving survey to p1_2024-05-17_09-30-05.json..."
                  later_world)) /\
  dict_get "endTime"
    (Survey_toDict
       (mkSurvey (VStr "p1") (VDict [("arm", VStr "left")])
                 (VStr "2024-05-17") (VStr "09-30-05")
                 (VStr "09-45-10") [sample_field]))
  = Some (VStr "09-45-10").
Proof.
  split; [reflexivity|]. split; [reflexivity|]. split; [reflexivity|].
  apply (session_saves_started_survey repr_unused idle_manager "p1"
           (VDict [("arm", VStr "left")]) [sample_field]
           sample_world later_world);
    [reflexivity | reflexivity | discriminate | reflexivity].
Defined.

Lemma save_again_after_failure_run :
  survey started_manager = Some started_survey /\
  projectedFields started_survey = [] /\
  open_error later_world "data/p1_2024-05-17_09-30-05.json" = None /\
  SurveyManager_saveSurvey repr_unused started_manager sample_world
  = (Returns false,
     mkSurveyManager
       (Some (mkSurvey (VStr "p1") (VDict [("arm", VStr "left")])
                       (VStr "2024-05-17") (VStr "09-30-05")
                       (VStr "09-30-05") []))
       sample_config "data",
     with_line msg_no_fields sample_world) /\
  SurveyManager_saveSurvey repr_unused
    (mkSurveyManager
       (Some (mkSurvey (VStr "p1") (VDict [("arm", VStr "left")])
                       (VStr "2024-05-17") (VStr "09-30-05")
                       (VStr "09-30-05") [sample_field]))
       sample_config "data")
    later_world
  = (Returns true, idle_manager,
     with_file "data/p1_2024-05-17_09-30-05.json"
       (JsonText 4
          (VDict (Survey_toDict
                    (mkSurvey (VStr "p1") (VDict [("arm", VStr "left")])
                              (VStr "2024-05-17") (VStr "09-30-05")
                              (VStr "09-45-10") [sample_field]))))
       (with_line "Saving survey to p1_2024-05-17_09-30-05.json..."
                  later_world)) /\
  dict_get "endTime"
    (Survey_toDict
       (mkSurvey (VStr "p1") (VDict [("arm", VStr "left")])
                 (VStr "2024-05-17") (VStr "09-30-05")
                 (VStr "09-45-10") [sample_field]))
  = Some (VStr "09-45-10").
Proof.
  split; [reflexivity|]. split; [reflexivity|]. split; [reflexivity|].
  apply (save_again_after_failure repr_unused started_manager started_survey
           [sample_field] sample_world later_world);
    [reflexivity | reflexivity | discriminate | reflexivity].
Defined.

(** The survey started at 09:30:05 and one started at 09:45:10 for the same
    participant have different file names. *)
Lemma started_surveys_same_file_run :
  SurveyManager_newSurvey "p1" idle_manager sample_world
  = (Returns (VBool true), started_manager, sample_world) /\
  SurveyManager_newSurvey "p1" idle_manager later_world
  = (Returns (VBool true),
     set_survey (Some (set_startTime (VStr "09-45-10") started_survey))
                idle_manager,
     later_world) /\
  (Survey_filename repr_unused started_survey
   = Survey_filename repr_unused started_survey ->
   clock sample_world = clock sample_world) /\
  Survey_filename repr_unused started_survey
  <> Survey_filename repr_unused
       (set_startTime (VStr "09-45-10") started_survey).
Proof.
  split; [reflexivity|]. split; [reflexivity|]. split.
  { apply (started_surveys_same_file repr_unused "p1" idle_manager
             idle_manager started_manager started_manager started_survey
             started_survey sample_world sample_world sample_world
             sample_world); reflexivity. }
  intros Hname.
  assert (Hclock : clock sample_world = clock later_world).
  { apply (started_surveys_same_file repr_unused "p1" idle_manager idle_manager
             started_manager
             (set_survey (Some (set_startTime (VStr "09-45-10") started_survey))
                         idle_manager)
             started_survey (set_startTime (VStr "09-45-10") started_survey)
             sample_world later_world sample_world later_world);
      try reflexivity.
    exact Hname. }
  discriminate Hclock.
Defined.
